(** * Code-Learning-Assistant: the panels' logic, embedded and verified

    The React components of the repository keep their logic in a handful of
    event handlers and timer callbacks.  Each component is embedded below as a
    record of its [useState] cells together with one function per handler;
    strings are ECMAScript strings, that is sequences of UTF-16 code units. *)

From Stdlib Require Import List NArith ZArith Lia Bool.
From Stdlib Require String Ascii.
Import ListNotations.
Import String.StringSyntax.
Delimit Scope string_scope with string.

(* ================================================================== *)
(** ** ECMAScript strings and the library calls the components use     *)
(* ================================================================== *)

Module JS.

(** A string value is a finite sequence of 16-bit code units. *)
Definition codeUnit := N.
Definition jsstring := list codeUnit.

(** An ASCII source literal, one code unit per character. *)
Definition lit (s : String.string) : jsstring :=
  map Ascii.N_of_ascii (String.list_ascii_of_string s).
Arguments lit s%_string.

(** The double quote and the line feed, spliced into literals. *)
Definition dq : jsstring := [34%N].
Definition nl : jsstring := [10%N].

(** [a === b] on strings. *)
Fixpoint eqb (a b : jsstring) : bool :=
  match a, b with
  | [], [] => true
  | x :: a', y :: b' => (x =? y)%N && eqb a' b'
  | _, _ => false
  end.

(** [s.startsWith(pat)]: [pat] is a prefix of [s]. *)
Fixpoint startsWith (s pat : jsstring) {struct pat} : bool :=
  match pat, s with
  | [], _ => true
  | _ :: _, [] => false
  | p :: pat', c :: s' => (c =? p)%N && startsWith s' pat'
  end.

(** [s.includes(pat)]: [pat] occurs at some position of [s]. *)
Fixpoint includes (s pat : jsstring) : bool :=
  match s with
  | [] => startsWith [] pat
  | _ :: s' => startsWith s pat || includes s' pat
  end.

(** [s.split(sep)] for a separator of one code unit; the result always
    holds at least one piece. *)
Fixpoint split (s : jsstring) (sep : codeUnit) : list jsstring :=
  match s with
  | [] => [[]]
  | c :: s' =>
      if (c =? sep)%N then [] :: split s' sep
      else match split s' sep with
           | piece :: pieces => (c :: piece) :: pieces
           | [] => [[c]]
           end
  end.

(** [a.some(p)] on arrays. *)
Definition some {A : Type} (a : list A) (p : A -> bool) : bool := existsb p a.

(** [a.push(x)], as the new array. *)
Definition push {A : Type} (a : list A) (x : A) : list A := a ++ [x].

(** [a.includes(x)] on an array of strings. *)
Definition array_includes (a : list jsstring) (x : jsstring) : bool :=
  existsb (eqb x) a.

(** WhiteSpace and LineTerminator code units, the ones [trim] strips:
    TAB, LF, VT, FF, CR, SP, NBSP, the Zs category, LS, PS and ZWNBSP. *)
Definition isWhiteSpace (c : codeUnit) : bool :=
  ((9 <=? c) && (c <=? 13) || (c =? 32) || (c =? 160) || (c =? 5760)
   || (8192 <=? c) && (c <=? 8202) || (c =? 8232) || (c =? 8233)
   || (c =? 8239) || (c =? 8287) || (c =? 12288) || (c =? 65279))%N.

Definition nonWhiteSpace (c : codeUnit) : bool := negb (isWhiteSpace c).

Fixpoint trimStart (s : jsstring) : jsstring :=
  match s with
  | [] => []
  | c :: s' => if isWhiteSpace c then trimStart s' else s
  end.

Definition trimEnd (s : jsstring) : jsstring := rev (trimStart (rev s)).

(** [s.trim()]. *)
Definition trim (s : jsstring) : jsstring := trimEnd (trimStart s).

(** ToBoolean on a string: only the empty string is falsy. *)
Definition truthy (s : jsstring) : bool :=
  match s with [] => false | _ :: _ => true end.

(** What [Math.random()] returns: a double in the interval from 0
    (included) to 1 (excluded), that is [mant / 2^expo] for a significand
    [mant] of at most 53 bits. *)
Record unitDouble := mkUnit { mant : N; expo : N }.

Definition unit_wf (r : unitDouble) : Prop :=
  (mant r < 2 ^ 53 /\ mant r < 2 ^ expo r)%N.

(** Rounding of a natural number to a significand of 53 bits, to nearest,
    ties to even: what a product of doubles goes through. *)
Definition round53 (m : N) : N :=
  let sh := (N.size m - 53)%N in
  if (sh =? 0)%N then m
  else
    let q := N.shiftr m sh in
    let r := N.land m (N.ones sh) in
    let half := N.shiftl 1 (sh - 1) in
    let q' := if (half <? r)%N || ((r =? half)%N && N.odd q)
              then (q + 1)%N else q in
    N.shiftl q' sh.

(** [Math.floor(r * n)] for [r] as above and an integer [n] below [2^53]:
    the product is rounded to a double before the floor is taken. *)
Definition floor_times (r : unitDouble) (n : N) : N :=
  N.shiftr (round53 (mant r * n)) (expo r).

End JS.

(* ================================================================== *)
(** ** components/CodeAnalyzer.tsx                                      *)
(* ================================================================== *)

Module CodeAnalyzer.
Import JS.

Inductive ResultType := error | warning | info | suggestion.
Inductive Severity := high | medium | low.

(** interface AnalysisResult; [fix_] is the field [fix]. *)
Record AnalysisResult := mkResult {
  type : ResultType;
  message : jsstring;
  line : option Z;
  severity : Severity;
  fix_ : option jsstring
}.

(** The array [results] that the timer callback of [analyzeCode] builds and
    hands to [setAnalysis] (lines 30-79); [code] and [language] are the props
    of the render that started the timer. *)
Definition analyzeCode_results (code language : jsstring)
  : list AnalysisResult :=
  let results := [] in
  let results :=
    if includes code (lit "var ") then
      push results
        {| type := warning;
           message := lit "Use " ++ dq ++ lit "let" ++ dq ++ lit " or " ++ dq
                      ++ lit "const" ++ dq ++ lit " instead of " ++ dq
                      ++ lit "var" ++ dq ++ lit " for better scoping";
           line := None;
           severity := medium;
           fix_ := Some (lit "Replace " ++ dq ++ lit "var" ++ dq
                         ++ lit " with " ++ dq ++ lit "let" ++ dq ++ lit " or "
                         ++ dq ++ lit "const" ++ dq) |}
    else results in
  let results :=
    if includes code (lit "console.log") && eqb language (lit "javascript")
    then
      push results
        {| type := info;
           message :=
             lit "Console.log detected - remember to remove in production";
           line := None;
           severity := low;
           fix_ := Some
             (lit "Use proper logging library or remove debug statements") |}
    else results in
  let results :=
    if negb (includes code (lit "function")) && negb (includes code (lit "=>"))
       && (50 <? length code)
    then
      push results
        {| type := suggestion;
           message := lit
             "Consider breaking this code into functions for better modularity";
           line := None;
           severity := medium;
           fix_ := Some
             (lit "Extract reusable logic into separate functions") |}
    else results in
  let results :=
    if some (split code 10%N) (fun line => 120 <? length line) then
      push results
        {| type := warning;
           message := lit "Some lines are too long (>120 characters)";
           line := None;
           severity := low;
           fix_ := Some (lit "Break long lines for better readability") |}
    else results in
  let results :=
    if includes code (lit "for") && includes code (lit "forEach") then
      push results
        {| type := suggestion;
           message := lit
             "Consider using map/filter/reduce for functional programming";
           line := None;
           severity := low;
           fix_ := Some
             (lit "Use functional array methods when appropriate") |}
    else results in
  results.

(** *** The rule table, as the specification words it

    Five rules in a fixed order; each pairs the condition under which it
    fires with the finding it emits. *)

Definition var_warning : AnalysisResult :=
  {| type := warning;
     message := lit "Use " ++ dq ++ lit "let" ++ dq ++ lit " or " ++ dq
                ++ lit "const" ++ dq ++ lit " instead of " ++ dq
                ++ lit "var" ++ dq ++ lit " for better scoping";
     line := None;
     severity := medium;
     fix_ := Some (lit "Replace " ++ dq ++ lit "var" ++ dq ++ lit " with "
                   ++ dq ++ lit "let" ++ dq ++ lit " or " ++ dq
                   ++ lit "const" ++ dq) |}.

Definition console_log_info : AnalysisResult :=
  {| type := info;
     message := lit "Console.log detected - remember to remove in production";
     line := None;
     severity := low;
     fix_ := Some
       (lit "Use proper logging library or remove debug statements") |}.

Definition extract_functions_suggestion : AnalysisResult :=
  {| type := suggestion;
     message := lit
       "Consider breaking this code into functions for better modularity";
     line := None;
     severity := medium;
     fix_ := Some (lit "Extract reusable logic into separate functions") |}.

Definition long_line_warning : AnalysisResult :=
  {| type := warning;
     message := lit "Some lines are too long (>120 characters)";
     line := None;
     severity := low;
     fix_ := Some (lit "Break long lines for better readability") |}.

Definition for_forEach_suggestion : AnalysisResult :=
  {| type := suggestion;
     message := lit
       "Consider using map/filter/reduce for functional programming";
     line := None;
     severity := low;
     fix_ := Some (lit "Use functional array methods when appropriate") |}.

(** the text contains the literal substring [var ] *)
Definition fires_var (code : jsstring) : bool :=
  includes code (lit "var ").

(** the text contains [console.log] and the language is [javascript] *)
Definition fires_console_log (code language : jsstring) : bool :=
  includes code (lit "console.log") && eqb language (lit "javascript").

(** the text contains neither [function] nor [=>] and is longer than 50 *)
Definition fires_extract_functions (code : jsstring) : bool :=
  negb (includes code (lit "function") || includes code (lit "=>"))
  && (50 <? length code).

(** some line, splitting on newline, is longer than 120 *)
Definition fires_long_line (code : jsstring) : bool :=
  existsb (fun l : jsstring => 120 <? length l) (split code 10%N).

(** the text contains both [for] and [forEach] *)
Definition fires_for_forEach (code : jsstring) : bool :=
  includes code (lit "for") && includes code (lit "forEach").

Definition fired (code language : jsstring) : list bool :=
  [ fires_var code; fires_console_log code language;
    fires_extract_functions code; fires_long_line code;
    fires_for_forEach code ].

Definition findings : list AnalysisResult :=
  [ var_warning; console_log_info; extract_functions_suggestion;
    long_line_warning; for_forEach_suggestion ].

(** The findings of the rules marked in [marks], in rule order. *)
Definition selected (marks : list bool) : list AnalysisResult :=
  map snd (filter fst (combine marks findings)).

(** analyze(code, language) of the specification. *)
Definition analyze_spec (code language : jsstring) : list AnalysisResult :=
  selected (fired code language).

(** A text on which exactly the rules marked in [b1] .. [b5] fire when the
    language is [javascript]. *)
Definition code_firing (b1 b2 b3 b4 b5 : bool) : jsstring :=
  (if b1 then lit "var " else [])
  ++ (if b2 then lit "console.log" else [])
  ++ (if b5 then lit "forEach" else [])
  ++ (if b3 then [] else lit "=>")
  ++ nl
  ++ (if b4 then repeat 97%N 121 else [])
  ++ (if b3 then repeat 10%N 51 else []).

(** The component between two events: its props, its two [useState] cells
    and the [setTimeout] callbacks not run yet.  Every callback waits the
    same 1500 ms, so they run in the order they were started; each one keeps
    the [code] and [language] of the render that started it. *)
Record State := mkState {
  code : jsstring;
  language : jsstring;
  analysis : list AnalysisResult;
  isAnalyzing : bool;
  timers : list (jsstring * jsstring)
}.

(** [analyzeCode]: raise the flag and start the timer (lines 25-82). *)
Definition analyzeCode (s : State) : State :=
  {| code := code s;
     language := language s;
     analysis := analysis s;
     isAnalyzing := true;
     timers := timers s ++ [(code s, language s)] |}.

(** The body of the [useEffect] (lines 85-87). *)
Definition effect (s : State) : State :=
  if truthy (trim (code s)) then analyzeCode s else s.

(** First render: the effect always runs. *)
Definition mount (code0 language0 : jsstring) : State :=
  effect {| code := code0; language := language0; analysis := [];
            isAnalyzing := false; timers := [] |}.

(** A later render with new props: the effect runs when one of the
    dependencies [code], [language] differs from the previous render. *)
Definition rerender (code' language' : jsstring) (s : State) : State :=
  let s' := {| code := code'; language := language';
               analysis := analysis s; isAnalyzing := isAnalyzing s;
               timers := timers s |} in
  if eqb code' (code s) && eqb language' (language s) then s' else effect s'.

(** The oldest pending timer fires: its callback publishes the results
    (lines 29-81). *)
Definition timeout (s : State) : State :=
  match timers s with
  | [] => s
  | (code0, language0) :: rest =>
      {| code := code s;
         language := language s;
         analysis := analyzeCode_results code0 language0;
         isAnalyzing := false;
         timers := rest |}
  end.

(** *** The automatic trigger, as the specification words it (amended)

    [blank code]: nothing is left of [code] after trimming, that is every
    code unit of it is white space. *)
Definition blank (code : jsstring) : Prop :=
  forall c, In c code -> isWhiteSpace c = true.

(** What a render with the props [code'] and [language'] does to the
    component: nothing when neither prop changed; nothing either when the
    new code is blank, the findings shown staying what they were; otherwise
    one more analysis of the new props is started. *)
Inductive trigger (code' language' : jsstring) (s : State) : State -> Prop :=
| trigger_unchanged :
    code' = code s -> language' = language s ->
    trigger code' language' s
      {| code := code'; language := language'; analysis := analysis s;
         isAnalyzing := isAnalyzing s; timers := timers s |}
| trigger_blank :
    code' <> code s \/ language' <> language s ->
    blank code' ->
    trigger code' language' s
      {| code := code'; language := language'; analysis := analysis s;
         isAnalyzing := isAnalyzing s; timers := timers s |}
| trigger_analyze :
    code' <> code s \/ language' <> language s ->
    ~ blank code' ->
    trigger code' language' s
      {| code := code'; language := language'; analysis := analysis s;
         isAnalyzing := true;
         timers := timers s ++ [(code', language')] |}.

(** The type and the severity of a finding, in which the five findings of
    the rule table differ. *)
Definition kind (r : AnalysisResult) : ResultType * Severity :=
  (type r, severity r).

(** *** The component over time

    It is mounted with some props; after that its parent renders it again
    with props of its choice and pending timers fire, in any order. *)
Inductive reachable : State -> Prop :=
| reach_mount : forall code0 language0, reachable (mount code0 language0)
| reach_rerender : forall code' language' s,
    reachable s -> reachable (rerender code' language' s)
| reach_timeout : forall s, reachable s -> reachable (timeout s).

(** What the scroll area shows (lines 122-168): the spinner while
    [isAnalyzing], else the cards of the findings if there are any, else the
    line "No issues found! Your code looks great." *)
Inductive Panel :=
| Spinner
| Cards (items : list AnalysisResult)
| NoIssues.

Definition panel (s : State) : Panel :=
  if isAnalyzing s then Spinner
  else if 0 <? length (analysis s) then Cards (analysis s)
  else NoIssues.

(** Every timer pending in [s] fires. *)
Definition drain (s : State) : State :=
  Nat.iter (length (timers s)) timeout s.

End CodeAnalyzer.

(* ================================================================== *)
(** ** components/DebugHelper.tsx                                       *)
(* ================================================================== *)

Module DebugHelper.
Import JS.

Inductive SuggestionType := error | warning | tip.

(** interface DebugSuggestion *)
Record DebugSuggestion := mkSuggestion {
  id : jsstring;
  type : SuggestionType;
  title : jsstring;
  description : jsstring;
  solution : jsstring;
  codeExample : option jsstring
}.

Definition commonIssues : list DebugSuggestion := [
  {| id := lit "1";
     type := error;
     title := lit "Undefined Variable";
     description :=
       lit "Variable is being used before declaration or is out of scope";
     solution :=
       lit "Declare the variable before using it, or check if it's "
       ++ lit "accessible in the current scope.";
     codeExample := Some
       (lit "// " ++ [10060%N] ++ lit " Wrong" ++ nl
        ++ lit "console.log(name); // Error: name is not defined" ++ nl
        ++ nl
        ++ lit "// " ++ [9989%N] ++ lit " Correct" ++ nl
        ++ lit "let name = " ++ dq ++ lit "John" ++ dq ++ lit ";" ++ nl
        ++ lit "console.log(name);") |};
  {| id := lit "2";
     type := error;
     title := lit "Cannot read property of undefined";
     description :=
       lit "Trying to access a property of an undefined or null object";
     solution :=
       lit "Use optional chaining (?.) or check if the object exists "
       ++ lit "before accessing properties.";
     codeExample := Some
       (lit "// " ++ [10060%N] ++ lit " Wrong" ++ nl
        ++ lit "const user = null;" ++ nl
        ++ lit "console.log(user.name); // Error" ++ nl
        ++ nl
        ++ lit "// " ++ [9989%N] ++ lit " Correct" ++ nl
        ++ lit "const user = null;" ++ nl
        ++ lit "console.log(user?.name); // undefined (no error)" ++ nl
        ++ lit "// or" ++ nl
        ++ lit "if (user) {" ++ nl
        ++ lit "  console.log(user.name);" ++ nl
        ++ lit "}") |};
  {| id := lit "3";
     type := warning;
     title := lit "Infinite Loop";
     description :=
       lit "Loop condition never becomes false, causing the program to "
       ++ lit "hang";
     solution :=
       lit "Ensure the loop variable is properly updated and the "
       ++ lit "condition will eventually be false.";
     codeExample := Some
       (lit "// " ++ [10060%N] ++ lit " Wrong" ++ nl
        ++ lit "let i = 0;" ++ nl
        ++ lit "while (i < 10) {" ++ nl
        ++ lit "  console.log(i); // i never changes!" ++ nl
        ++ lit "}" ++ nl
        ++ nl
        ++ lit "// " ++ [9989%N] ++ lit " Correct" ++ nl
        ++ lit "let i = 0;" ++ nl
        ++ lit "while (i < 10) {" ++ nl
        ++ lit "  console.log(i);" ++ nl
        ++ lit "  i++; // Update the counter" ++ nl
        ++ lit "}") |};
  {| id := lit "4";
     type := tip;
     title := lit "Array Index Out of Bounds";
     description :=
       lit "Accessing array elements with invalid indices";
     solution :=
       lit "Check array length before accessing elements or use safe "
       ++ lit "methods.";
     codeExample := Some
       (lit "// " ++ [10060%N] ++ lit " Risky" ++ nl
        ++ lit "const arr = [1, 2, 3];" ++ nl
        ++ lit "console.log(arr[10]); // undefined" ++ nl
        ++ nl
        ++ lit "// " ++ [9989%N] ++ lit " Safe" ++ nl
        ++ lit "const arr = [1, 2, 3];" ++ nl
        ++ lit "if (arr.length > 10) {" ++ nl
        ++ lit "  console.log(arr[10]);" ++ nl
        ++ lit "}" ++ nl
        ++ lit "// or use optional chaining" ++ nl
        ++ lit "console.log(arr.at(10)); // undefined (safe)") |}
].

Section AnalyzeError.

(** [String.prototype.toLowerCase] follows the Unicode case tables of the
    host; the handler is embedded over whatever function it is. *)
Variable toLowerCase : jsstring -> jsstring.

(** The array that the timer callback of [analyzeError] hands to
    [setSuggestions] (lines 106-117); [errorDescription] and [code] are the
    description cell and the code prop of the render whose button was
    clicked. *)
Definition analyzeError_suggestions (errorDescription code : jsstring)
  : list DebugSuggestion :=
  let relevantSuggestions :=
    filter (fun issue : DebugSuggestion =>
      let keywords := toLowerCase errorDescription in
      includes keywords (lit "undefined") ||
      includes keywords (lit "null") ||
      includes keywords (lit "loop") ||
      includes keywords (lit "property") ||
      includes code (lit "undefined") ||
      includes code (lit "while") ||
      includes code (lit "for")) commonIssues in
  if 0 <? length relevantSuggestions then relevantSuggestions
  else commonIssues.

End AnalyzeError.

(** The lower-casing of the host on text of the Basic Latin block. *)
Definition toLowerCase_ascii (s : jsstring) : jsstring :=
  map (fun c => if (65 <=? c) && (c <=? 90) then c + 32 else c)%N s.

(** *** The filter, as the specification words it

    An entry passes when the lower-cased description contains one of
    [undefined], [null], [loop], [property], or the code contains one of
    [undefined], [while], [for]. *)
Definition filter_predicate (lowered code : jsstring) : bool :=
  existsb (includes lowered)
    [lit "undefined"; lit "null"; lit "loop"; lit "property"]
  || existsb (includes code) [lit "undefined"; lit "while"; lit "for"].

(** The catalog entries that pass the filter, in catalog order. *)
Definition kept (lowered code : jsstring) : list DebugSuggestion :=
  filter (fun _ => filter_predicate lowered code) commonIssues.

(** *** The component over time *)

(** The prop [code], the three [useState] cells and the [setTimeout]
    callbacks not run yet, each with the description and the code of the
    render whose button was clicked (all wait the same 1000 ms). *)
Record State := mkState {
  code : jsstring;
  errorDescription : jsstring;
  suggestions : list DebugSuggestion;
  isAnalyzing : bool;
  timers : list (jsstring * jsstring)
}.

Definition mount (code0 : jsstring) : State :=
  {| code := code0; errorDescription := []; suggestions := [];
     isAnalyzing := false; timers := [] |}.

(** A later render with a new [code] prop. *)
Definition rerender (code' : jsstring) (s : State) : State :=
  {| code := code'; errorDescription := errorDescription s;
     suggestions := suggestions s; isAnalyzing := isAnalyzing s;
     timers := timers s |}.

(** The [onChange] of the text area (line 161). *)
Definition setErrorDescription (value : jsstring) (s : State) : State :=
  {| code := code s; errorDescription := value;
     suggestions := suggestions s; isAnalyzing := isAnalyzing s;
     timers := timers s |}.

(** [analyzeError] (lines 101-120): raise the flag and start the timer. *)
Definition analyzeError (s : State) : State :=
  {| code := code s; errorDescription := errorDescription s;
     suggestions := suggestions s; isAnalyzing := true;
     timers := timers s ++ [(errorDescription s, code s)] |}.

(** The [disabled] attribute of the button (line 166). *)
Definition buttonDisabled (s : State) : bool :=
  isAnalyzing s || negb (truthy (trim (errorDescription s))).

(** A click on the button: a disabled button does not call its handler. *)
Definition click (s : State) : State :=
  if buttonDisabled s then s else analyzeError s.

Section Panel.

Variable toLowerCase : jsstring -> jsstring.

(** The oldest pending timer fires (lines 105-119). *)
Definition timeout (s : State) : State :=
  match timers s with
  | [] => s
  | (description0, code0) :: rest =>
      {| code := code s; errorDescription := errorDescription s;
         suggestions :=
           analyzeError_suggestions toLowerCase description0 code0;
         isAnalyzing := false;
         timers := rest |}
  end.

Inductive reachable : State -> Prop :=
| reach_mount : forall code0, reachable (mount code0)
| reach_rerender : forall code' s,
    reachable s -> reachable (rerender code' s)
| reach_typing : forall value s,
    reachable s -> reachable (setErrorDescription value s)
| reach_click : forall s, reachable s -> reachable (click s)
| reach_timeout : forall s, reachable s -> reachable (timeout s).

End Panel.

End DebugHelper.

(* ================================================================== *)
(** ** components/TutorialSystem.tsx                                    *)
(* ================================================================== *)

Module TutorialSystem.
Import JS.

Inductive Difficulty := Beginner | Intermediate | Advanced.

(** interface TutorialStep; [step_id] and [step_title] are its fields [id]
    and [title]. *)
Record TutorialStep := mkStep {
  step_id : jsstring;
  step_title : jsstring;
  content : jsstring;
  code : option jsstring;
  explanation : jsstring;
  tips : option (list jsstring)
}.

(** interface Tutorial *)
Record Tutorial := mkTutorial {
  id : jsstring;
  title : jsstring;
  description : jsstring;
  difficulty : Difficulty;
  duration : jsstring;
  steps : list TutorialStep
}.

Definition tutorials : list Tutorial := [
  {| id := lit "js-basics";
     title := lit "JavaScript Fundamentals";
     description :=
       lit "Learn the core concepts of JavaScript programming";
     difficulty := Beginner;
     duration := lit "30 min";
     steps := [
       {| step_id := lit "1";
          step_title := lit "Variables and Data Types";
          content :=
            lit "In JavaScript, you can store data in variables using let, "
            ++ lit "const, or var keywords.";
          code := Some
            (lit "// Different ways to declare variables" ++ nl
             ++ lit "let name = " ++ dq ++ lit "John" ++ dq
             ++ lit ";        // String" ++ nl
             ++ lit "const age = 25;          // Number" ++ nl
             ++ lit "let isStudent = true;    // Boolean" ++ nl
             ++ lit "let hobbies = [" ++ dq ++ lit "coding" ++ dq ++ lit ", "
             ++ dq ++ lit "reading" ++ dq ++ lit "]; // Array" ++ nl
             ++ lit "let person = { name: " ++ dq ++ lit "Alice" ++ dq
             ++ lit ", age: 30 }; // Object");
          explanation :=
            lit "Variables are containers for storing data. Use " ++ dq
            ++ lit "const" ++ dq ++ lit " for values that won't change, "
            ++ dq ++ lit "let" ++ dq
            ++ lit " for values that might change, and avoid " ++ dq
            ++ lit "var" ++ dq ++ lit " in modern JavaScript.";
          tips := Some [
            lit "Always use meaningful variable names";
            lit "Prefer const over let when the value doesn't change";
            lit "Use camelCase for variable naming"
          ] |};
       {| step_id := lit "2";
          step_title := lit "Functions";
          content :=
            lit "Functions are reusable blocks of code that perform specific "
            ++ lit "tasks.";
          code := Some
            (lit "// Function declaration" ++ nl
             ++ lit "function greet(name) {" ++ nl
             ++ lit "  return " ++ dq ++ lit "Hello, " ++ dq
             ++ lit " + name + " ++ dq ++ lit "!" ++ dq ++ lit ";" ++ nl
             ++ lit "}" ++ nl
             ++ nl
             ++ lit "// Arrow function (ES6+)" ++ nl
             ++ lit "const greetArrow = (name) => {" ++ nl
             ++ lit "  return `Hello, ${name}!`;" ++ nl
             ++ lit "};" ++ nl
             ++ nl
             ++ lit "// Short arrow function" ++ nl
             ++ lit "const greetShort = name => `Hello, ${name}!`;" ++ nl
             ++ nl
             ++ lit "// Using the functions" ++ nl
             ++ lit "console.log(greet(" ++ dq ++ lit "Alice" ++ dq
             ++ lit "));" ++ nl
             ++ lit "console.log(greetArrow(" ++ dq ++ lit "Bob" ++ dq
             ++ lit "));");
          explanation :=
            lit "Functions help organize code and make it reusable. Arrow "
            ++ lit "functions provide a more concise syntax and have different "
            ++ dq ++ lit "this" ++ dq ++ lit " binding behavior.";
          tips := Some [
            lit "Keep functions small and focused on one task";
            lit "Use descriptive function names";
            lit "Consider using arrow functions for short operations"
          ] |};
       {| step_id := lit "3";
          step_title := lit "Control Flow";
          content :=
            lit "Control the flow of your program using conditions and loops.";
          code := Some
            (lit "// If-else statements" ++ nl
             ++ lit "let score = 85;" ++ nl
             ++ lit "if (score >= 90) {" ++ nl
             ++ lit "  console.log(" ++ dq ++ lit "Excellent!" ++ dq
             ++ lit ");" ++ nl
             ++ lit "} else if (score >= 70) {" ++ nl
             ++ lit "  console.log(" ++ dq ++ lit "Good job!" ++ dq
             ++ lit ");" ++ nl
             ++ lit "} else {" ++ nl
             ++ lit "  console.log(" ++ dq ++ lit "Keep practicing!" ++ dq
             ++ lit ");" ++ nl
             ++ lit "}" ++ nl
             ++ nl
             ++ lit "// For loop" ++ nl
             ++ lit "for (let i = 0; i < 5; i++) {" ++ nl
             ++ lit "  console.log(" ++ dq ++ lit "Count: " ++ dq
             ++ lit " + i);" ++ nl
             ++ lit "}" ++ nl
             ++ nl
             ++ lit "// Array iteration" ++ nl
             ++ lit "const fruits = [" ++ dq ++ lit "apple" ++ dq ++ lit ", "
             ++ dq ++ lit "banana" ++ dq ++ lit ", " ++ dq ++ lit "orange"
             ++ dq ++ lit "];" ++ nl
             ++ lit "fruits.forEach(fruit => {" ++ nl
             ++ lit "  console.log(" ++ dq ++ lit "I like " ++ dq
             ++ lit " + fruit);" ++ nl
             ++ lit "});");
          explanation :=
            lit "Control flow statements help you make decisions and repeat "
            ++ lit "actions in your code.";
          tips := Some [
            lit "Use forEach, map, filter for array operations";
            lit "Consider switch statements for multiple conditions";
            lit "Break complex conditions into smaller, readable parts"
          ] |} ] |};
  {| id := lit "react-intro";
     title := lit "React Components";
     description :=
       lit "Build interactive user interfaces with React";
     difficulty := Intermediate;
     duration := lit "45 min";
     steps := [
       {| step_id := lit "1";
          step_title := lit "Creating Components";
          content :=
            lit "React components are the building blocks of React "
            ++ lit "applications.";
          code := Some
            (lit "import React from 'react';" ++ nl
             ++ nl
             ++ lit "// Functional component" ++ nl
             ++ lit "function Welcome(props) {" ++ nl
             ++ lit "  return <h1>Hello, {props.name}!</h1>;" ++ nl
             ++ lit "}" ++ nl
             ++ nl
             ++ lit "// Arrow function component" ++ nl
             ++ lit "const WelcomeArrow = ({ name }) => {" ++ nl
             ++ lit "  return <h1>Hello, {name}!</h1>;" ++ nl
             ++ lit "};" ++ nl
             ++ nl
             ++ lit "// Using the component" ++ nl
             ++ lit "function App() {" ++ nl
             ++ lit "  return (" ++ nl
             ++ lit "    <div>" ++ nl
             ++ lit "      <Welcome name=" ++ dq ++ lit "Alice" ++ dq
             ++ lit " />" ++ nl
             ++ lit "      <WelcomeArrow name=" ++ dq ++ lit "Bob" ++ dq
             ++ lit " />" ++ nl
             ++ lit "    </div>" ++ nl
             ++ lit "  );" ++ nl
             ++ lit "}");
          explanation :=
            lit "Components let you split the UI into independent, reusable "
            ++ lit "pieces. Props allow you to pass data from parent to child "
            ++ lit "components.";
          tips := Some [
            lit "Use PascalCase for component names";
            lit "Keep components small and focused";
            lit "Use destructuring for props when possible"
          ] |};
       {| step_id := lit "2";
          step_title := lit "State Management";
          content :=
            lit "State allows components to have dynamic data that can change "
            ++ lit "over time.";
          code := Some
            (lit "import React, { useState } from 'react';" ++ nl
             ++ nl
             ++ lit "function Counter() {" ++ nl
             ++ lit "  const [count, setCount] = useState(0);" ++ nl
             ++ lit "  const [name, setName] = useState('');" ++ nl
             ++ nl
             ++ lit "  return (" ++ nl
             ++ lit "    <div>" ++ nl
             ++ lit "      <h2>Count: {count}</h2>" ++ nl
             ++ lit "      <button onClick={() => setCount(count + 1)}>" ++ nl
             ++ lit "        Increment" ++ nl
             ++ lit "      </button>" ++ nl
             ++ lit "      <button onClick={() => setCount(count - 1)}>" ++ nl
             ++ lit "        Decrement" ++ nl
             ++ lit "      </button>" ++ nl
             ++ lit "      " ++ nl
             ++ lit "      <input " ++ nl
             ++ lit "        type=" ++ dq ++ lit "text" ++ dq ++ nl
             ++ lit "        value={name}" ++ nl
             ++ lit "        onChange={(e) => setName(e.target.value)}" ++ nl
             ++ lit "        placeholder=" ++ dq ++ lit "Enter your name"
             ++ dq ++ nl
             ++ lit "      />" ++ nl
             ++ lit "      <p>Hello, {name}!</p>" ++ nl
             ++ lit "    </div>" ++ nl
             ++ lit "  );" ++ nl
             ++ lit "}");
          explanation :=
            lit "useState hook allows functional components to have state. "
            ++ lit "Always use the setter function to update state.";
          tips := Some [
            lit "State updates are asynchronous";
            lit "Don't mutate state directly";
            lit "Use functional updates for complex state logic"
          ] |} ] |}
].

(** The three [useState] cells; [completedSteps] is the [Set<string>], kept
    in insertion order without repetition. *)
Record State := mkState {
  selectedTutorial : option Tutorial;
  currentStep : Z;
  completedSteps : list jsstring
}.

Definition initial : State :=
  {| selectedTutorial := None; currentStep := 0; completedSteps := [] |}.

Inductive Direction := next | prev.

(** [a[i]] for a number [i]: [undefined] ([None]) outside the array. *)
Definition index {A : Type} (a : list A) (i : Z) : option A :=
  if (i <? 0)%Z then None else nth_error a (Z.to_nat i).

(** [steps[i]?.code] when it is truthy: the argument [onLoadTutorialCode]
    is called with, if it is called. *)
Definition stepCode (t : Tutorial) (i : Z) : option jsstring :=
  match index (steps t) i with
  | Some step =>
      match code step with
      | Some c => if truthy c then Some c else None
      | None => None
      end
  | None => None
  end.

(** [handleTutorialSelect] (lines 201-207): the new cells and the code
    loaded into the page, if any. *)
Definition handleTutorialSelect (tutorial : Tutorial) (s : State)
  : State * option jsstring :=
  ({| selectedTutorial := Some tutorial;
      currentStep := 0;
      completedSteps := completedSteps s |},
   stepCode tutorial 0).

(** [handleStepNavigation] (lines 209-220). *)
Definition handleStepNavigation (direction : Direction) (s : State)
  : State * option jsstring :=
  match selectedTutorial s with
  | None => (s, None)
  | Some tutorial =>
      let newStep :=
        match direction with
        | next => Z.min (currentStep s + 1)
                        (Z.of_nat (length (steps tutorial)) - 1)
        | prev => Z.max (currentStep s - 1) 0
        end%Z in
      ({| selectedTutorial := selectedTutorial s;
          currentStep := newStep;
          completedSteps := completedSteps s |},
       stepCode tutorial newStep)
  end.

(** [new Set([...set, x])] *)
Definition set_add (set : list jsstring) (x : jsstring) : list jsstring :=
  if array_includes set x then set else set ++ [x].

(** [markStepCompleted] (lines 222-227); [None] is the TypeError of
    reading [id] from a step that is not there. *)
Definition markStepCompleted (s : State) : option State :=
  match selectedTutorial s with
  | None => Some s
  | Some tutorial =>
      match index (steps tutorial) (currentStep s) with
      | Some step =>
          Some {| selectedTutorial := selectedTutorial s;
                  currentStep := currentStep s;
                  completedSteps := set_add (completedSteps s) (step_id step) |}
      | None => None
      end
  end.

(** The back button: [setSelectedTutorial(null)] (line 299). *)
Definition deselect (s : State) : State :=
  {| selectedTutorial := None;
     currentStep := currentStep s;
     completedSteps := completedSteps s |}.

(** The states the component can be in: it starts in [initial]; the list
    view offers the tutorials of the catalog, the step view the two
    navigation buttons, the completion button and the back button. *)
Inductive reachable : State -> Prop :=
| reach_initial : reachable initial
| reach_select : forall tutorial s,
    In tutorial tutorials -> reachable s ->
    reachable (fst (handleTutorialSelect tutorial s))
| reach_navigate : forall direction s,
    reachable s -> reachable (fst (handleStepNavigation direction s))
| reach_mark : forall s s',
    reachable s -> markStepCompleted s = Some s' -> reachable s'
| reach_deselect : forall s, reachable s -> reachable (deselect s).

(** The last valid step index of a tutorial, [steps.length - 1]. *)
Definition lastStepIndex (t : Tutorial) : Z :=
  (Z.of_nat (length (steps t)) - 1)%Z.

(** While a tutorial is selected it is one of the catalog and the step
    index is one of its steps. *)
Definition step_in_range (s : State) : Prop :=
  forall t, selectedTutorial s = Some t ->
            In t tutorials /\ (0 <= currentStep s <= lastStepIndex t)%Z.

(** *** The buttons of the step view *)

(** [disabled] of Previous (line 354). *)
Definition prevDisabled (s : State) : bool := (currentStep s =? 0)%Z.

(** [disabled] of Next (line 377). *)
Definition nextDisabled (tutorial : Tutorial) (s : State) : bool :=
  (currentStep s =? Z.of_nat (length (steps tutorial)) - 1)%Z.

(** [completedSteps.has(currentStepData.id)], the [disabled] of the
    completion button (lines 288, 362); [None] is the TypeError of reading
    [id] from a step that is not there. *)
Definition markDisabled (tutorial : Tutorial) (s : State) : option bool :=
  match index (steps tutorial) (currentStep s) with
  | Some currentStepData =>
      Some (array_includes (completedSteps s) (step_id currentStepData))
  | None => None
  end.

End TutorialSystem.

(* ================================================================== *)
(** ** components/ExerciseGenerator.tsx                                 *)
(* ================================================================== *)

Module ExerciseGenerator.
Import JS.

Inductive Difficulty := Easy | Medium | Hard.

Record TestCase := mkTestCase {
  input : jsstring;
  expected : jsstring
}.

(** interface Exercise *)
Record Exercise := mkExercise {
  id : jsstring;
  title : jsstring;
  description : jsstring;
  difficulty : Difficulty;
  topic : jsstring;
  timeEstimate : jsstring;
  points : Z;
  starterCode : jsstring;
  solution : jsstring;
  testCases : list TestCase
}.

Definition exercises : list Exercise := [
  {| id := lit "1";
     title := lit "Array Sum Calculator";
     description :=
       lit "Write a function that calculates the sum of all numbers in an "
       ++ lit "array";
     difficulty := Easy;
     topic := lit "Arrays";
     timeEstimate := lit "5 min";
     points := 10%Z;
     starterCode :=
       lit "function sumArray(numbers) {" ++ nl
       ++ lit "  // Your code here" ++ nl
       ++ lit "  " ++ nl
       ++ lit "}" ++ nl
       ++ nl
       ++ lit "// Test your function" ++ nl
       ++ lit "console.log(sumArray([1, 2, 3, 4, 5])); // Should return 15";
     solution :=
       lit "function sumArray(numbers) {" ++ nl
       ++ lit "  return numbers.reduce((sum, num) => sum + num, 0);" ++ nl
       ++ lit "}";
     testCases := [
        {| input := lit "[1, 2, 3, 4, 5]";
           expected := lit "15" |};
        {| input := lit "[10, -5, 3]";
           expected := lit "8" |};
        {| input := lit "[]";
           expected := lit "0" |} ] |};
  {| id := lit "2";
     title := lit "String Reverser";
     description :=
       lit "Create a function that reverses a string without using "
       ++ lit "built-in reverse method";
     difficulty := Medium;
     topic := lit "Strings";
     timeEstimate := lit "10 min";
     points := 20%Z;
     starterCode :=
       lit "function reverseString(str) {" ++ nl
       ++ lit "  // Your code here - don't use .reverse()" ++ nl
       ++ lit "  " ++ nl
       ++ lit "}" ++ nl
       ++ nl
       ++ lit "// Test your function" ++ nl
       ++ lit "console.log(reverseString(" ++ dq ++ lit "hello" ++ dq
       ++ lit ")); // Should return " ++ dq ++ lit "olleh" ++ dq;
     solution :=
       lit "function reverseString(str) {" ++ nl
       ++ lit "  let reversed = '';" ++ nl
       ++ lit "  for (let i = str.length - 1; i >= 0; i--) {" ++ nl
       ++ lit "    reversed += str[i];" ++ nl
       ++ lit "  }" ++ nl
       ++ lit "  return reversed;" ++ nl
       ++ lit "}";
     testCases := [
        {| input := dq ++ lit "hello" ++ dq;
           expected := dq ++ lit "olleh" ++ dq |};
        {| input := dq ++ lit "JavaScript" ++ dq;
           expected := dq ++ lit "tpircSavaJ" ++ dq |};
        {| input := dq ++ dq;
           expected := dq ++ dq |} ] |};
  {| id := lit "3";
     title := lit "Fibonacci Generator";
     description :=
       lit "Implement a function that generates the first n numbers in "
       ++ lit "the Fibonacci sequence";
     difficulty := Hard;
     topic := lit "Algorithms";
     timeEstimate := lit "15 min";
     points := 30%Z;
     starterCode :=
       lit "function fibonacci(n) {" ++ nl
       ++ lit "  // Your code here" ++ nl
       ++ lit "  " ++ nl
       ++ lit "}" ++ nl
       ++ nl
       ++ lit "// Test your function" ++ nl
       ++ lit "console.log(fibonacci(7)); // Should return [0, 1, 1, 2, 3, "
       ++ lit "5, 8]";
     solution :=
       lit "function fibonacci(n) {" ++ nl
       ++ lit "  if (n <= 0) return [];" ++ nl
       ++ lit "  if (n === 1) return [0];" ++ nl
       ++ lit "  " ++ nl
       ++ lit "  const sequence = [0, 1];" ++ nl
       ++ lit "  for (let i = 2; i < n; i++) {" ++ nl
       ++ lit "    sequence[i] = sequence[i - 1] + sequence[i - 2];" ++ nl
       ++ lit "  }" ++ nl
       ++ lit "  return sequence;" ++ nl
       ++ lit "}";
     testCases := [
        {| input := lit "7";
           expected := lit "[0, 1, 1, 2, 3, 5, 8]" |};
        {| input := lit "1";
           expected := lit "[0]" |};
        {| input := lit "0";
           expected := lit "[]" |} ] |}
].

(** The three [useState] cells. *)
Record State := mkState {
  currentExercise : option Exercise;
  completedExercises : list jsstring;
  showSolution : bool
}.

Definition initial : State :=
  {| currentExercise := None; completedExercises := [];
     showSolution := false |}.

(** [generateRandomExercise] (lines 118-124), given what [Math.random()]
    returned: the new cells and the code handed to [onLoadExercise].
    [None] is the TypeError of reading [starterCode] from [undefined]. *)
Definition generateRandomExercise (random : unitDouble) (s : State)
  : option (State * jsstring) :=
  let randomIndex := floor_times random (N.of_nat (length exercises)) in
  match nth_error exercises (N.to_nat randomIndex) with
  | Some exercise =>
      Some ({| currentExercise := Some exercise;
               completedExercises := completedExercises s;
               showSolution := false |},
            starterCode exercise)
  | None => None
  end.

(** [markCompleted] (lines 126-130). *)
Definition markCompleted (s : State) : State :=
  match currentExercise s with
  | Some exercise =>
      if negb (array_includes (completedExercises s) (id exercise)) then
        {| currentExercise := currentExercise s;
           completedExercises :=
             completedExercises s ++ [id exercise];
           showSolution := showSolution s |}
      else s
  | None => s
  end.

(** The solution button: [setShowSolution(!showSolution)] (line 231). *)
Definition toggleSolution (s : State) : State :=
  {| currentExercise := currentExercise s;
     completedExercises := completedExercises s;
     showSolution := negb (showSolution s) |}.

(** *** [markComplete], as the specification words it

    The identifier of the current exercise is added to the completed ones;
    nothing happens when it is among them already, nor when no exercise is
    selected. *)
Inductive markComplete_spec (s : State) : State -> Prop :=
| mark_none :
    currentExercise s = None -> markComplete_spec s s
| mark_present : forall exercise,
    currentExercise s = Some exercise ->
    In (id exercise) (completedExercises s) ->
    markComplete_spec s s
| mark_added : forall exercise,
    currentExercise s = Some exercise ->
    ~ In (id exercise) (completedExercises s) ->
    markComplete_spec s
      {| currentExercise := currentExercise s;
         completedExercises := completedExercises s ++ [id exercise];
         showSolution := showSolution s |}.

(** *** The component over time and what its header shows *)

Inductive reachable : State -> Prop :=
| reach_initial : reachable initial
| reach_generate : forall random s s' code,
    unit_wf random -> reachable s ->
    generateRandomExercise random s = Some (s', code) -> reachable s'
| reach_mark : forall s, reachable s -> reachable (markCompleted s)
| reach_toggle : forall s, reachable s -> reachable (toggleSolution s).

(** [{completedExercises.length} completed] (line 157). *)
Definition completedShown (s : State) : nat :=
  length (completedExercises s).

(** [{completedExercises.length * 20} points] (line 161). *)
Definition pointsShown (s : State) : nat :=
  length (completedExercises s) * 20.

(** [disabled] of the completion button (line 224), for the exercise
    shown. *)
Definition markDisabled (exercise : Exercise) (s : State) : bool :=
  array_includes (completedExercises s) (id exercise).

End ExerciseGenerator.

(* ================================================================== *)
(** ** The component [TopicSelector]                                    *)
(* ================================================================== *)

Module TopicSelector.
Import JS.

Inductive Difficulty := Beginner | Intermediate | Advanced.

(** The icon elements of the catalog, all of class [w-5 h-5]. *)
Inductive Icon :=
  IconCode | IconDatabase | IconGlobe | IconSmartphone | IconBrain
| IconServer.

(** interface Topic *)
Record Topic := mkTopic {
  id : jsstring;
  name : jsstring;
  icon : Icon;
  description : jsstring;
  difficulty : Difficulty;
  color : jsstring
}.

Definition topics : list Topic := [
  {| id := lit "javascript";
     name := lit "JavaScript";
     icon := IconCode;
     description := lit "Learn modern JavaScript fundamentals";
     difficulty := Beginner;
     color :=
       lit "bg-yellow-500/20 text-yellow-300 border-yellow-500/30" |};
  {| id := lit "react";
     name := lit "React";
     icon := IconGlobe;
     description := lit "Build interactive user interfaces";
     difficulty := Intermediate;
     color :=
       lit "bg-blue-500/20 text-blue-300 border-blue-500/30" |};
  {| id := lit "python";
     name := lit "Python";
     icon := IconBrain;
     description := lit "Data science and web development";
     difficulty := Beginner;
     color :=
       lit "bg-green-500/20 text-green-300 border-green-500/30" |};
  {| id := lit "database";
     name := lit "SQL & Databases";
     icon := IconDatabase;
     description := lit "Master data management";
     difficulty := Intermediate;
     color :=
       lit "bg-purple-500/20 text-purple-300 border-purple-500/30" |};
  {| id := lit "mobile";
     name := lit "Mobile Dev";
     icon := IconSmartphone;
     description := lit "iOS and Android development";
     difficulty := Advanced;
     color :=
       lit "bg-pink-500/20 text-pink-300 border-pink-500/30" |};
  {| id := lit "backend";
     name := lit "Backend APIs";
     icon := IconServer;
     description := lit "Server-side development";
     difficulty := Advanced;
     color :=
       lit "bg-orange-500/20 text-orange-300 border-orange-500/30" |}
].

End TopicSelector.

(* ================================================================== *)
(** ** components/CodeEditor.tsx                                        *)
(* ================================================================== *)

Module CodeEditor.
Import JS.

(** The [useState] cell of the text area. *)
Record State := mkState { code : jsstring }.

(** First render: [useState(initialCode)], the prop defaulting to the
    empty string when it is [undefined] ([None]). *)
Definition mount (initialCode : option jsstring) : State :=
  {| code := match initialCode with Some c => c | None => [] end |}.

(** A later render: [useState] keeps its cell whatever the prop is now. *)
Definition rerender (initialCode : option jsstring) (s : State) : State := s.

(** The [onChange] of the text area (line 59). *)
Definition onChange (value : jsstring) (s : State) : State :=
  {| code := value |}.

(** [handleRunCode] (lines 26-33): the argument [onRunCode] is called
    with. *)
Definition handleRunCode (s : State) : jsstring := code s.

(** [handleCopyCode] (lines 17-24): the text written to the clipboard. *)
Definition handleCopyCode (s : State) : jsstring := code s.

(** What happens to a mounted editor. *)
Inductive Event :=
| Typed (value : jsstring)
| Rendered (initialCode : option jsstring).

Definition handle (s : State) (e : Event) : State :=
  match e with
  | Typed value => onChange value s
  | Rendered initialCode => rerender initialCode s
  end.

(** The last text typed in a run of events, if any was. *)
Fixpoint lastTyped (events : list Event) : option jsstring :=
  match events with
  | [] => None
  | e :: rest =>
      match lastTyped rest with
      | Some value => Some value
      | None => match e with Typed value => Some value | Rendered _ => None end
      end
  end.

End CodeEditor.

(* ================================================================== *)
(** ** The page component [Index], owner of the current code           *)
(* ================================================================== *)

Module Index.
Import JS.

Record State := mkState {
  selectedTopic : option jsstring;
  currentCode : jsstring;
  activeTab : jsstring
}.

(** [handleLoadExercise] *)
Definition handleLoadExercise (code : jsstring) (s : State) : State :=
  {| selectedTopic := selectedTopic s;
     currentCode := code;
     activeTab := lit "editor" |}.

(** [handleLoadTutorialCode] *)
Definition handleLoadTutorialCode (code : jsstring) (s : State) : State :=
  {| selectedTopic := selectedTopic s;
     currentCode := code;
     activeTab := lit "editor" |}.

(** *** The rest of the page (its second, tabbed version) *)

Definition codeExamples_javascript : jsstring :=
  lit "// JavaScript Fundamentals - Interactive Learning" ++ nl
  ++ lit "function greetUser(name) {" ++ nl
  ++ lit "  if (!name) {" ++ nl
  ++ lit "    throw new Error(" ++ dq ++ lit "Name is required!" ++ dq
  ++ lit ");" ++ nl
  ++ lit "  }" ++ nl
  ++ lit "  return `Hello, ${name}! Welcome to CodeLearner AI.`;" ++ nl
  ++ lit "}" ++ nl
  ++ nl
  ++ lit "// Example usage with error handling" ++ nl
  ++ lit "try {" ++ nl
  ++ lit "  const userName = " ++ dq ++ lit "Developer" ++ dq ++ lit ";" ++ nl
  ++ lit "  console.log(greetUser(userName));" ++ nl
  ++ lit "  " ++ nl
  ++ lit "  // This will cause an error - try it!" ++ nl
  ++ lit "  // console.log(greetUser());" ++ nl
  ++ lit "} catch (error) {" ++ nl
  ++ lit "  console.error(" ++ dq ++ lit "Error:" ++ dq
  ++ lit ", error.message);" ++ nl
  ++ lit "}" ++ nl
  ++ nl
  ++ lit "// Advanced: Async function example" ++ nl
  ++ lit "async function fetchUserData(userId) {" ++ nl
  ++ lit "  const response = await fetch(`/api/users/${userId}`);" ++ nl
  ++ lit "  return response.json();" ++ nl
  ++ lit "}".

Definition codeExamples_react : jsstring :=
  lit "// React Component with Hooks - Best Practices" ++ nl
  ++ lit "import React, { useState, useEffect } from 'react';" ++ nl
  ++ nl
  ++ lit "function UserProfile({ userId }) {" ++ nl
  ++ lit "  const [user, setUser] = useState(null);" ++ nl
  ++ lit "  const [loading, setLoading] = useState(true);" ++ nl
  ++ lit "  const [error, setError] = useState(null);" ++ nl
  ++ nl
  ++ lit "  useEffect(() => {" ++ nl
  ++ lit "    fetchUser();" ++ nl
  ++ lit "  }, [userId]);" ++ nl
  ++ nl
  ++ lit "  const fetchUser = async () => {" ++ nl
  ++ lit "    try {" ++ nl
  ++ lit "      setLoading(true);" ++ nl
  ++ lit "      const response = await fetch(`/api/users/${userId}`);" ++ nl
  ++ lit "      " ++ nl
  ++ lit "      if (!response.ok) {" ++ nl
  ++ lit "        throw new Error('Failed to fetch user');" ++ nl
  ++ lit "      }" ++ nl
  ++ lit "      " ++ nl
  ++ lit "      const userData = await response.json();" ++ nl
  ++ lit "      setUser(userData);" ++ nl
  ++ lit "    } catch (err) {" ++ nl
  ++ lit "      setError(err.message);" ++ nl
  ++ lit "    } finally {" ++ nl
  ++ lit "      setLoading(false);" ++ nl
  ++ lit "    }" ++ nl
  ++ lit "  };" ++ nl
  ++ nl
  ++ lit "  if (loading) return <div>Loading...</div>;" ++ nl
  ++ lit "  if (error) return <div>Error: {error}</div>;" ++ nl
  ++ lit "  if (!user) return <div>No user found</div>;" ++ nl
  ++ nl
  ++ lit "  return (" ++ nl
  ++ lit "    <div className=" ++ dq ++ lit "user-profile" ++ dq ++ lit ">"
  ++ nl
  ++ lit "      <h2>{user.name}</h2>" ++ nl
  ++ lit "      <p>Email: {user.email}</p>" ++ nl
  ++ lit "      <p>Role: {user.role}</p>" ++ nl
  ++ lit "    </div>" ++ nl
  ++ lit "  );" ++ nl
  ++ lit "}" ++ nl
  ++ nl
  ++ lit "export default UserProfile;".

Definition codeExamples_python : jsstring :=
  lit "# Python Best Practices - Data Analysis Example" ++ nl
  ++ lit "import pandas as pd" ++ nl
  ++ lit "import numpy as np" ++ nl
  ++ lit "from typing import List, Dict, Optional" ++ nl
  ++ nl
  ++ lit "def analyze_student_performance(scores: List[Dict[str, "
  ++ lit "float]]) -> Dict[str, float]:" ++ nl
  ++ lit "    " ++ dq ++ dq ++ dq ++ nl
  ++ lit "    Analyze student performance data and return statistics." ++ nl
  ++ lit "    " ++ nl
  ++ lit "    Args:" ++ nl
  ++ lit "        scores: List of dictionaries containing student scores"
  ++ nl
  ++ lit "        " ++ nl
  ++ lit "    Returns:" ++ nl
  ++ lit "        Dictionary with performance statistics" ++ nl
  ++ lit "    " ++ dq ++ dq ++ dq ++ nl
  ++ lit "    if not scores:" ++ nl
  ++ lit "        raise ValueError(" ++ dq
  ++ lit "Scores list cannot be empty" ++ dq ++ lit ")" ++ nl
  ++ lit "    " ++ nl
  ++ lit "    # Convert to DataFrame for easier analysis" ++ nl
  ++ lit "    df = pd.DataFrame(scores)" ++ nl
  ++ lit "    " ++ nl
  ++ lit "    # Calculate statistics" ++ nl
  ++ lit "    stats = {" ++ nl
  ++ lit "        'average_score': df['score'].mean()," ++ nl
  ++ lit "        'median_score': df['score'].median()," ++ nl
  ++ lit "        'std_deviation': df['score'].std()," ++ nl
  ++ lit "        'max_score': df['score'].max()," ++ nl
  ++ lit "        'min_score': df['score'].min()," ++ nl
  ++ lit "        'pass_rate': (df['score'] >= 60).mean() * 100" ++ nl
  ++ lit "    }" ++ nl
  ++ lit "    " ++ nl
  ++ lit "    return stats" ++ nl
  ++ nl
  ++ lit "# Example usage" ++ nl
  ++ lit "student_scores = [" ++ nl
  ++ lit "    {'name': 'Alice', 'score': 92.5}," ++ nl
  ++ lit "    {'name': 'Bob', 'score': 78.0}," ++ nl
  ++ lit "    {'name': 'Charlie', 'score': 85.5}," ++ nl
  ++ lit "    {'name': 'Diana', 'score': 96.0}" ++ nl
  ++ lit "]" ++ nl
  ++ nl
  ++ lit "try:" ++ nl
  ++ lit "    performance_stats = "
  ++ lit "analyze_student_performance(student_scores)" ++ nl
  ++ lit "    print(f" ++ dq ++ lit "Class Performance Analysis:" ++ dq
  ++ lit ")" ++ nl
  ++ lit "    for metric, value in performance_stats.items():" ++ nl
  ++ lit "        print(f" ++ dq ++ lit "{metric}: {value:.2f}" ++ dq
  ++ lit ")" ++ nl
  ++ lit "except ValueError as e:" ++ nl
  ++ lit "    print(f" ++ dq ++ lit "Error: {e}" ++ dq ++ lit ")".

(** The object [codeExamples]: its own properties, in source order. *)
Definition codeExamples : list (jsstring * jsstring) :=
  [ (lit "javascript", codeExamples_javascript);
    (lit "react", codeExamples_react);
    (lit "python", codeExamples_python) ].

(** [o[key]] on an object with the own properties [o]. *)
Fixpoint property (o : list (jsstring * jsstring)) (key : jsstring)
  : option jsstring :=
  match o with
  | [] => None
  | (k, v) :: rest => if eqb k key then Some v else property rest key
  end.

Definition initial : State :=
  {| selectedTopic := Some (lit "javascript");
     currentCode := codeExamples_javascript;
     activeTab := lit "editor" |}.

(** [handleTopicSelect] (lines 302-305); [topicId] is the [id] of a card
    of the topic selector, none of which names a property that objects
    inherit. *)
Definition handleTopicSelect (topicId : jsstring) (s : State) : State :=
  {| selectedTopic := Some topicId;
     currentCode :=
       match property codeExamples topicId with
       | Some example => if truthy example then example else []
       | None => []
       end;
     activeTab := activeTab s |}.

(** [handleRunCode] (lines 307-310), the log line left out. *)
Definition handleRunCode (code : jsstring) (s : State) : State :=
  {| selectedTopic := selectedTopic s;
     currentCode := code;
     activeTab := activeTab s |}.

(** [setActiveTab], the [onValueChange] of the tabs (line 339). *)
Definition setActiveTab (value : jsstring) (s : State) : State :=
  {| selectedTopic := selectedTopic s;
     currentCode := currentCode s;
     activeTab := value |}.

(** The values of the four tab triggers (lines 341-353). *)
Definition tabs : list jsstring :=
  [lit "editor"; lit "analysis"; lit "debug"; lit "ai"].

(** [!selectedTopic]: the page shows the topic selector alone. *)
Definition selectorOnly (s : State) : bool :=
  match selectedTopic s with
  | Some topic => negb (truthy topic)
  | None => true
  end.

(** The page over time: a card of the topic selector is clicked, the
    editor runs some code, an exercise or a tutorial step loads its code, a
    tab trigger is clicked. *)
Inductive reachable : State -> Prop :=
| reach_initial : reachable initial
| reach_topic : forall topic s,
    In topic TopicSelector.topics -> reachable s ->
    reachable (handleTopicSelect (TopicSelector.id topic) s)
| reach_run : forall code s,
    reachable s -> reachable (handleRunCode code s)
| reach_exercise : forall code s,
    reachable s -> reachable (handleLoadExercise code s)
| reach_tutorial : forall code s,
    reachable s -> reachable (handleLoadTutorialCode code s)
| reach_tab : forall value s,
    In value tabs -> reachable s -> reachable (setActiveTab value s).

End Index.

(* ================================================================== *)
(** * Proofs                                                            *)
(* ================================================================== *)

(** Name the quotient and the remainder of [m] by [d], with the facts that
    tie them to [m]. *)
Ltac euclid m d :=
  let q := fresh "q" in
  let r := fresh "r" in
  pose proof (N.div_mod' m d);
  assert (m mod d < d)%N by (apply N.mod_upper_bound; discriminate);
  set (q := (m / d)%N) in *; set (r := (m mod d)%N) in *;
  clearbody q r.

(* ================================================================== *)
(** ** Facts about the string operations                                *)
(* ================================================================== *)

Module JSFacts.
Import JS.

Lemma eqb_eq (a b : jsstring) : eqb a b = true <-> a = b.
Proof.
  revert b; induction a as [|x a IH]; intros [|y b]; simpl;
    try (split; [discriminate | congruence]); try tauto.
  rewrite andb_true_iff, N.eqb_eq, IH.
  split; [intros [-> ->]; reflexivity | intros H; inversion H; auto].
Qed.

Lemma eqb_refl (a : jsstring) : eqb a a = true.
Proof. apply eqb_eq; reflexivity. Qed.

Lemma eqb_neq (a b : jsstring) : eqb a b = false <-> a <> b.
Proof.
  rewrite <- eqb_eq. destruct (eqb a b); split; congruence.
Qed.

(** [startsWith] finds exactly the prefixes. *)
Lemma startsWith_spec (s pat : jsstring) :
  startsWith s pat = true <-> exists post, s = pat ++ post.
Proof.
  revert s; induction pat as [|p pat IH]; intros s; simpl.
  - split; [exists s; reflexivity | reflexivity].
  - destruct s as [|c s].
    + split; [discriminate | intros [post H]; discriminate].
    + rewrite andb_true_iff, N.eqb_eq, IH. split.
      * intros [-> [post ->]]. exists post; reflexivity.
      * intros [post H]. inversion H; subst. split; [reflexivity | eauto].
Qed.

(** [includes] finds exactly the substrings. *)
Lemma includes_spec (s pat : jsstring) :
  includes s pat = true <-> exists pre post, s = pre ++ pat ++ post.
Proof.
  induction s as [|c s IH].
  - cbn [includes]. rewrite startsWith_spec. split.
    + intros [post H]. exists [], post. exact H.
    + intros [pre [post H]]. destruct pre as [|x pre]; [|discriminate].
      exists post. exact H.
  - cbn [includes]. rewrite orb_true_iff, startsWith_spec, IH. split.
    + intros [[post H] | [pre [post H]]].
      * exists [], post. exact H.
      * exists (c :: pre), post. simpl. now rewrite H.
    + intros [[|x pre] [post H]].
      * left. exists post. exact H.
      * right. simpl in H. inversion H; subst. eauto.
Qed.

Lemma truthy_rev (s : jsstring) : truthy (rev s) = truthy s.
Proof.
  destruct s as [|c s]; [reflexivity|]. simpl.
  destruct (rev s); reflexivity.
Qed.

Lemma truthy_trimStart (s : jsstring) :
  truthy (trimStart s) = existsb nonWhiteSpace s.
Proof.
  induction s as [|c s IH]; [reflexivity|]. simpl. unfold nonWhiteSpace at 1.
  destruct (isWhiteSpace c); [exact IH | reflexivity].
Qed.

Lemma existsb_trimStart (s : jsstring) :
  existsb nonWhiteSpace (trimStart s) = existsb nonWhiteSpace s.
Proof.
  induction s as [|c s IH]; [reflexivity|]. simpl.
  destruct (isWhiteSpace c) eqn:E; [|reflexivity].
  unfold nonWhiteSpace at 2. now rewrite E.
Qed.

Lemma existsb_rev_units (f : codeUnit -> bool) (s : jsstring) :
  existsb f (rev s) = existsb f s.
Proof.
  induction s as [|c s IH]; [reflexivity|]. simpl.
  rewrite existsb_app, IH. simpl. rewrite orb_false_r. apply orb_comm.
Qed.

(** Something is left after trimming exactly when some code unit is not
    white space. *)
Lemma truthy_trim (s : jsstring) :
  truthy (trim s) = existsb nonWhiteSpace s.
Proof.
  unfold trim, trimEnd.
  now rewrite truthy_rev, truthy_trimStart, existsb_rev_units, existsb_trimStart.
Qed.

Lemma trim_blank (s : jsstring) :
  truthy (trim s) = false <-> forall c, In c s -> isWhiteSpace c = true.
Proof.
  rewrite truthy_trim. split.
  - intros H c Hc. destruct (isWhiteSpace c) eqn:E; [reflexivity|].
    assert (existsb nonWhiteSpace s = true); [|congruence].
    apply existsb_exists. exists c. unfold nonWhiteSpace. now rewrite E.
  - intros H. destruct (existsb nonWhiteSpace s) eqn:E; [|reflexivity].
    apply existsb_exists in E. destruct E as [c [Hc E]].
    unfold nonWhiteSpace in E. rewrite (H c Hc) in E. discriminate.
Qed.

Example includes_for_in_forEach :
  includes (lit "items.forEach(show)") (lit "for") = true.
Proof. reflexivity. Qed.

Example includes_empty_pattern : includes (lit "abc") [] = true.
Proof. reflexivity. Qed.

Example split_lines :
  split (lit "a" ++ nl ++ nl ++ lit "bc") 10%N = [lit "a"; []; lit "bc"].
Proof. reflexivity. Qed.

Example trim_spaces_and_line_feed :
  trim (lit "  a b " ++ nl) = lit "a b".
Proof. reflexivity. Qed.

Example spaces_are_blank : truthy (trim (lit "   ")) = false.
Proof. reflexivity. Qed.

End JSFacts.

Module NumberFacts.
Import JS.
Local Open Scope N_scope.

Lemma size_bound (m : N) : m < 2 ^ 55 -> N.size m <= 55.
Proof.
  intros H. pose proof (N.size_le m) as L.
  apply N.lt_succ_r. apply (N.pow_lt_mono_r_iff 2); [reflexivity|].
  change (N.succ 55) with 56. rewrite N.succ_double_spec in L.
  assert (2 * m + 1 < 2 ^ 56); [|lia].
  change (2 ^ 56) with (2 * 2 ^ 55). lia.
Qed.

Lemma size_lower (m k : N) : k + 1 <= N.size m -> 2 ^ k <= m.
Proof.
  intros H. pose proof (N.size_le m) as L. rewrite N.succ_double_spec in L.
  assert (2 ^ (k + 1) <= 2 ^ N.size m) as P
    by (apply N.pow_le_mono_r; [discriminate | exact H]).
  rewrite N.pow_add_r in P. change (2 ^ 1) with 2 in P. lia.
Qed.

(** Rounding moves a number below [2^55] by at most 2. *)
Lemma round53_upper (m : N) :
  m < 2 ^ 55 -> round53 m <= m + 2 /\ (round53 m <> m -> 2 ^ 53 <= m).
Proof.
  intros H. pose proof (size_bound m H) as S. unfold round53.
  destruct (N.size m - 53 =? 0) eqn:Z.
  - split; [lia | congruence].
  - apply N.eqb_neq in Z.
    assert (2 ^ 53 <= m) as L by (apply size_lower; lia).
    split; [|intros _; exact L].
    assert (N.size m - 53 = 1 \/ N.size m - 53 = 2) as [-> | ->] by lia.
    + rewrite N.shiftr_div_pow2, N.land_ones.
      change (2 ^ 1) with 2. change (N.shiftl 1 (1 - 1)) with 1.
      euclid m 2.
      destruct ((1 <? r) || (r =? 1) && N.odd q) eqn:U;
        rewrite N.shiftl_mul_pow2; change (2 ^ 1) with 2.
      * apply orb_true_iff in U. destruct U as [U | U].
        -- apply N.ltb_lt in U. lia.
        -- apply andb_true_iff in U. destruct U as [U _].
           apply N.eqb_eq in U. lia.
      * clear U. lia.
    + rewrite N.shiftr_div_pow2, N.land_ones.
      change (2 ^ 2) with 4. change (N.shiftl 1 (2 - 1)) with 2.
      euclid m 4.
      destruct ((2 <? r) || (r =? 2) && N.odd q) eqn:U;
        rewrite N.shiftl_mul_pow2; change (2 ^ 2) with 4.
      * apply orb_true_iff in U. destruct U as [U | U].
        -- apply N.ltb_lt in U. lia.
        -- apply andb_true_iff in U. destruct U as [U _].
           apply N.eqb_eq in U. lia.
      * clear U. lia.
Qed.

(** [Math.floor(Math.random() * 3)] is 0, 1 or 2: the rounding of the
    product never reaches 3. *)
Lemma floor_times_3 (r : unitDouble) : unit_wf r -> floor_times r 3 < 3.
Proof.
  intros [Hm He]. unfold floor_times. rewrite N.shiftr_div_pow2.
  apply N.Div0.div_lt_upper_bound.
  assert (mant r * 3 < 2 ^ 55) as B
    by (change (2 ^ 55) with (4 * 2 ^ 53); lia).
  destruct (round53_upper _ B) as [U L].
  destruct (N.eq_dec (round53 (mant r * 3)) (mant r * 3)) as [E | E].
  - rewrite E. lia.
  - specialize (L E).
    assert (52 <= expo r) as X.
    { apply N.le_ngt. intros C.
      assert (2 ^ expo r <= 2 ^ 51) as P
        by (apply N.pow_le_mono_r; [discriminate | lia]).
      change (2 ^ 53) with (4 * 2 ^ 51) in L. lia. }
    replace (expo r) with (expo r - 2 + 2) in * by lia.
    rewrite N.pow_add_r in *. change (2 ^ 2) with 4 in *. lia.
Qed.

Example floor_times_largest :
  floor_times (mkUnit (2 ^ 53 - 1) 53) 3 = 2.
Proof. reflexivity. Qed.

Example floor_times_half : floor_times (mkUnit 1 1) 3 = 1.
Proof. reflexivity. Qed.

Example floor_times_zero : floor_times (mkUnit 0 0) 3 = 0.
Proof. reflexivity. Qed.

End NumberFacts.

(* ================================================================== *)
(** ** The analysis panel                                               *)
(* ================================================================== *)

Module AnalyzerProps.
Import JS JSFacts CodeAnalyzer.

(** The callback computes the rule table of the specification. *)
Lemma analyzeCode_results_spec (code language : jsstring) :
  analyzeCode_results code language = analyze_spec code language.
Proof.
  unfold analyzeCode_results, analyze_spec, fired, fires_var,
    fires_console_log, fires_extract_functions, fires_long_line,
    fires_for_forEach, some.
  rewrite negb_orb.
  repeat match goal with
         | |- context [if ?c then _ else _] => destruct c
         end; reflexivity.
Qed.

Lemma selected_length (marks : list bool) : length (selected marks) <= 5.
Proof.
  unfold selected. rewrite length_map.
  eapply Nat.le_trans; [apply filter_length_le|].
  rewrite length_combine. apply Nat.le_min_r.
Qed.

Lemma code_firing_fired (b1 b2 b3 b4 b5 : bool) :
  fired (code_firing b1 b2 b3 b4 b5) (lit "javascript") = [b1; b2; b3; b4; b5].
Proof.
  destruct b1, b2, b3, b4, b5; vm_compute; reflexivity.
Qed.

(** C4. For every code and language the callback evaluates the five rules
    one after the other, none depending on another, and returns the findings
    of those that fired in the order var-warning, console.log-info,
    extract-functions-suggestion, long-line-warning, for/forEach-suggestion:
    at most five findings.  Every one of the thirty-two subsets of the rules
    is what fires on some input. *)
Theorem analyze_rules_in_fixed_order :
  (forall code language,
      analyzeCode_results code language = selected (fired code language)
      /\ length (analyzeCode_results code language) <= 5)
  /\ (forall b1 b2 b3 b4 b5 : bool,
      exists code language,
        fired code language = [b1; b2; b3; b4; b5]
        /\ analyzeCode_results code language
           = map snd (filter fst
               [ (b1, var_warning); (b2, console_log_info);
                 (b3, extract_functions_suggestion); (b4, long_line_warning);
                 (b5, for_forEach_suggestion) ])).
Proof.
  split.
  - intros code language. rewrite analyzeCode_results_spec. split.
    + reflexivity.
    + apply selected_length.
  - intros b1 b2 b3 b4 b5.
    exists (code_firing b1 b2 b3 b4 b5), (lit "javascript").
    rewrite analyzeCode_results_spec. unfold analyze_spec.
    rewrite code_firing_fired. split; reflexivity.
Qed.

Lemma var_warning_not_in_rest (b2 b3 b4 b5 : bool) :
  ~ In var_warning
      (map snd (filter fst
         [ (b2, console_log_info); (b3, extract_functions_suggestion);
           (b4, long_line_warning); (b5, for_forEach_suggestion) ])).
Proof.
  intros H. apply in_map_iff in H. destruct H as [[b r] [Hr H]].
  apply filter_In in H. destruct H as [H _]. simpl in Hr. subst r.
  simpl in H.
  destruct H as [H | [H | [H | [H | []]]]];
    apply (f_equal snd) in H; simpl in H;
    (apply (f_equal type) in H; discriminate H)
    || (apply (f_equal severity) in H; discriminate H).
Qed.

(** C5. For every code containing the substring [var ] and every language,
    the var-warning (a warning of medium severity that suggests let or const)
    is among the findings exactly once: it is the first finding and does not
    occur again after it. *)
Theorem var_warning_exactly_once (code language : jsstring) :
  (exists pre post, code = pre ++ lit "var " ++ post) ->
  exists rest,
    analyzeCode_results code language = var_warning :: rest
    /\ ~ In var_warning rest
    /\ type var_warning = warning
    /\ severity var_warning = medium
    /\ includes (message var_warning) (lit "let") = true
    /\ includes (message var_warning) (lit "const") = true.
Proof.
  intros H. apply includes_spec in H.
  rewrite analyzeCode_results_spec. unfold analyze_spec, fired, fires_var.
  rewrite H. unfold selected, findings. cbn [combine filter fst map snd].
  eexists. split; [reflexivity|].
  split; [apply var_warning_not_in_rest|].
  repeat split; reflexivity.
Qed.

Lemma var_warning_exactly_once_witness :
  exists rest,
    analyzeCode_results (lit "var x = 1;") (lit "python") = var_warning :: rest
    /\ ~ In var_warning rest
    /\ type var_warning = warning
    /\ severity var_warning = medium
    /\ includes (message var_warning) (lit "let") = true
    /\ includes (message var_warning) (lit "const") = true.
Proof.
  apply (var_warning_exactly_once (lit "var x = 1;") (lit "python")).
  exists [], (lit "x = 1;"). reflexivity.
Defined.

(** C6. On the code [var x = 1;], a line feed, [console.log(x);] with the
    language [javascript] the findings are exactly two: the var-warning, of
    medium severity, and then the console.log-info, of low severity. *)
Theorem analyze_var_console_scenario :
  analyzeCode_results (lit "var x = 1;" ++ nl ++ lit "console.log(x);")
                      (lit "javascript")
  = [var_warning; console_log_info]
  /\ type var_warning = warning /\ severity var_warning = medium
  /\ type console_log_info = info /\ severity console_log_info = low.
Proof.
  split; [vm_compute; reflexivity | repeat split].
Qed.

Lemma findings_types :
  Forall (fun r => (type r = warning \/ type r = info \/ type r = suggestion)
                   /\ (severity r = medium \/ severity r = low)) findings.
Proof.
  unfold findings.
  repeat apply Forall_cons; try apply Forall_nil; simpl; split; auto.
Qed.

Lemma selected_incl (marks : list bool) : incl (selected marks) findings.
Proof.
  intros r H. unfold selected in H. apply in_map_iff in H.
  destruct H as [[b r'] [Hr H]]. apply filter_In in H. destruct H as [H _].
  simpl in Hr. subst r'. eapply in_combine_r. exact H.
Qed.

(** C10. Whatever the code and the language, no finding of the callback has
    the type [error] or the severity [high], which the type of findings
    admits: its type is warning, info or suggestion and its severity is
    medium or low. *)
Theorem no_error_no_high_severity (code language : jsstring) :
  Forall (fun r =>
            type r <> error /\ severity r <> high
            /\ (type r = warning \/ type r = info \/ type r = suggestion)
            /\ (severity r = medium \/ severity r = low))
         (analyzeCode_results code language).
Proof.
  rewrite analyzeCode_results_spec. unfold analyze_spec.
  apply Forall_forall. intros r H. apply selected_incl in H.
  pose proof findings_types as F. rewrite Forall_forall in F.
  destruct (F r H) as [Ht Hs].
  repeat split; try assumption.
  - intros E. rewrite E in Ht. destruct Ht as [Ht | [Ht | Ht]]; discriminate.
  - intros E. rewrite E in Hs. destruct Hs as [Hs | Hs]; discriminate.
Qed.

Lemma blank_trim (c : jsstring) : blank c <-> truthy (trim c) = false.
Proof. unfold blank. symmetry. apply trim_blank. Qed.

Lemma deps_changed (c' l' c l : jsstring) :
  eqb c' c && eqb l' l = false -> c' <> c \/ l' <> l.
Proof.
  rewrite andb_false_iff, !eqb_neq. tauto.
Qed.

(** C3, as amended.  A render whose code or language differs from the
    previous one starts one more analysis, of the new props, when the code is
    not blank after trimming; when it is blank no analysis is started and the
    findings shown are left as they were.  The findings are empty from the
    mount until a timer fires, and a timer that fires publishes the analysis
    of the props it was started with. *)
Theorem automatic_trigger :
  (forall code' language' s,
      trigger code' language' s (rerender code' language' s))
  /\ (forall code0 language0,
      analysis (mount code0 language0) = []
      /\ timers (mount code0 language0)
         = if truthy (trim code0) then [(code0, language0)] else [])
  /\ (forall c l a b code0 language0 rest,
      analysis (timeout {| code := c; language := l; analysis := a;
                           isAnalyzing := b;
                           timers := (code0, language0) :: rest |})
      = analyzeCode_results code0 language0).
Proof.
  split; [|split].
  - intros code' language' s. unfold rerender.
    destruct (eqb code' (code s) && eqb language' (language s)) eqn:D.
    + apply andb_true_iff in D. destruct D as [Dc Dl].
      apply eqb_eq in Dc, Dl. now apply trigger_unchanged.
    + apply deps_changed in D. unfold effect. cbn [code].
      destruct (truthy (trim code')) eqn:T.
      * apply trigger_analyze; [exact D|].
        rewrite blank_trim. congruence.
      * apply trigger_blank; [exact D|]. now apply blank_trim.
  - intros code0 language0. unfold mount, effect. cbn [code].
    destruct (truthy (trim code0)); split; reflexivity.
  - reflexivity.
Qed.

(** C3 as stated fails: after the findings of [var x] are shown, a render
    with the empty code starts no analysis, yet the finding stays shown. *)
Lemma blank_code_keeps_findings :
  let s := rerender [] (lit "javascript")
             (timeout (mount (lit "var x") (lit "javascript"))) in
  truthy (trim (code s)) = false
  /\ timers s = []
  /\ isAnalyzing s = false
  /\ analysis s = [var_warning]
  /\ analysis s <> [].
Proof.
  vm_compute. repeat split; discriminate.
Qed.

(** The trigger starts nothing on the empty code and on three spaces. *)
Example mount_blank_code :
  timers (mount [] (lit "javascript")) = []
  /\ timers (mount (lit "   ") (lit "javascript")) = []
  /\ analysis (mount (lit "   ") (lit "javascript")) = [].
Proof. repeat split. Qed.

End AnalyzerProps.

(* ================================================================== *)
(** ** The debug panel                                                  *)
(* ================================================================== *)

Module DebugProps.
Import JS JSFacts DebugHelper.

Lemma filter_const (A : Type) (b : bool) (l : list A) :
  filter (fun _ => b) l = if b then l else [].
Proof.
  induction l as [|x l IH]; destruct b; simpl in *; congruence.
Qed.

Lemma commonIssues_length : length commonIssues = 4.
Proof. reflexivity. Qed.

(** The test of the handler is the predicate of the specification; it does
    not look at the entry. *)
Lemma relevant_kept (toLowerCase : jsstring -> jsstring)
      (errorDescription code : jsstring) :
  filter (fun issue : DebugSuggestion =>
      let keywords := toLowerCase errorDescription in
      includes keywords (lit "undefined") ||
      includes keywords (lit "null") ||
      includes keywords (lit "loop") ||
      includes keywords (lit "property") ||
      includes code (lit "undefined") ||
      includes code (lit "while") ||
      includes code (lit "for")) commonIssues
  = kept (toLowerCase errorDescription) code.
Proof.
  unfold kept. apply filter_ext. intros _.
  unfold filter_predicate. cbn [existsb].
  rewrite !orb_false_r, !orb_assoc. reflexivity.
Qed.

Lemma analyzeError_cases (toLowerCase : jsstring -> jsstring)
      (errorDescription code : jsstring) :
  analyzeError_suggestions toLowerCase errorDescription code
  = if filter_predicate (toLowerCase errorDescription) code
    then kept (toLowerCase errorDescription) code else commonIssues.
Proof.
  unfold analyzeError_suggestions. rewrite relevant_kept.
  unfold kept. rewrite filter_const.
  destruct (filter_predicate (toLowerCase errorDescription) code).
  - now rewrite commonIssues_length.
  - reflexivity.
Qed.

(** C1. For every description and code the handler returns the catalog
    entries that pass the filter of the specification, in the catalog order
    undefined-variable, null-property-access, infinite-loop, out-of-bounds,
    and the whole catalog of four when none passes; the result is never
    empty. *)
Theorem suggest_filtered_or_whole_catalog
        (toLowerCase : jsstring -> jsstring)
        (errorDescription code : jsstring) :
  analyzeError_suggestions toLowerCase errorDescription code
  = match kept (toLowerCase errorDescription) code with
    | [] => commonIssues
    | _ :: _ => kept (toLowerCase errorDescription) code
    end
  /\ analyzeError_suggestions toLowerCase errorDescription code <> []
  /\ map title commonIssues
     = [ lit "Undefined Variable"; lit "Cannot read property of undefined";
         lit "Infinite Loop"; lit "Array Index Out of Bounds" ]
  /\ map id commonIssues = [lit "1"; lit "2"; lit "3"; lit "4"].
Proof.
  rewrite analyzeError_cases. unfold kept. rewrite filter_const.
  destruct (filter_predicate (toLowerCase errorDescription) code).
  - repeat split; try reflexivity. intros H.
    apply (f_equal (@length _)) in H. rewrite commonIssues_length in H.
    discriminate.
  - repeat split; try reflexivity. intros H.
    apply (f_equal (@length _)) in H. rewrite commonIssues_length in H.
    discriminate.
Qed.

(** C2. For every description and code the handler returns the whole
    catalog of four entries in catalog order: the test of the filter does not
    mention the entry, so the filter keeps every entry or none, and in the
    second case the catalog is returned in its place. *)
Theorem suggest_is_constant
        (toLowerCase : jsstring -> jsstring)
        (errorDescription code : jsstring) :
  analyzeError_suggestions toLowerCase errorDescription code = commonIssues
  /\ length commonIssues = 4
  /\ (kept (toLowerCase errorDescription) code = commonIssues
      \/ kept (toLowerCase errorDescription) code = []).
Proof.
  rewrite analyzeError_cases. unfold kept. rewrite filter_const.
  destruct (filter_predicate (toLowerCase errorDescription) code);
    repeat split; auto.
Qed.

Example suggest_on_null_pointer :
  map id (analyzeError_suggestions toLowerCase_ascii
            (lit "NULL pointer") (lit "x = 1"))
  = [lit "1"; lit "2"; lit "3"; lit "4"].
Proof. reflexivity. Qed.

End DebugProps.

(* ================================================================== *)
(** ** The tutorial walker                                              *)
(* ================================================================== *)

Module TutorialProps.
Import JS JSFacts TutorialSystem.
Local Open Scope Z_scope.

(** Every tutorial of the catalog has a first step. *)
Lemma catalog_has_steps (t : Tutorial) :
  In t tutorials -> 0 <= lastStepIndex t.
Proof.
  unfold tutorials. cbn [In].
  intros [<- | [<- | []]]; unfold lastStepIndex; cbn [steps length]; lia.
Qed.

Lemma index_in_range (A : Type) (l : list A) (i : Z) :
  0 <= i <= Z.of_nat (length l) - 1 -> index l i <> None.
Proof.
  intros H. unfold index.
  destruct (i <? 0) eqn:E; [apply Z.ltb_lt in E; lia|].
  apply nth_error_Some. lia.
Qed.

Lemma reachable_step_in_range (s : State) :
  reachable s -> step_in_range s.
Proof.
  induction 1 as [ | tutorial s Hin _ _ | direction s _ IH
                   | s s' _ IH Hmark | s _ _ ]; intros t Ht.
  - discriminate.
  - cbn in Ht. inversion Ht; subst t. cbn [fst handleTutorialSelect currentStep].
    split; [exact Hin|]. pose proof (catalog_has_steps _ Hin). lia.
  - unfold handleStepNavigation in *.
    destruct (selectedTutorial s) as [t'|] eqn:Sel.
    + cbn in Ht. inversion Ht; subst t'.
      destruct (IH t Sel) as [Hin Hr]. split; [exact Hin|].
      cbn [fst currentStep]. unfold lastStepIndex in *.
      destruct direction; lia.
    + cbn in Ht. congruence.
  - unfold markStepCompleted in Hmark.
    destruct (selectedTutorial s) as [t'|] eqn:Sel.
    + destruct (index (steps t') (currentStep s)); [|discriminate].
      inversion Hmark; subst s'. cbn in *. apply IH. congruence.
    + inversion Hmark; subst s'. congruence.
  - discriminate.
Qed.

(** C7. In every state the component can reach with a tutorial selected,
    the step index lies between 0 and the last step index; going to the next
    step from the last one and to the previous step from step 0 leave it
    where it is, any other move changes it by one; and after a move in either
    direction the same tutorial is selected and the index is again the index
    of one of its steps. *)
Theorem step_index_clamped (s : State) (t : Tutorial) :
  reachable s -> selectedTutorial s = Some t ->
  0 <= currentStep s <= lastStepIndex t
  /\ currentStep (fst (handleStepNavigation next s))
     = (if currentStep s =? lastStepIndex t then currentStep s
        else currentStep s + 1)
  /\ currentStep (fst (handleStepNavigation prev s))
     = (if currentStep s =? 0 then currentStep s else currentStep s - 1)
  /\ forall direction,
       let s' := fst (handleStepNavigation direction s) in
       selectedTutorial s' = Some t
       /\ 0 <= currentStep s' <= lastStepIndex t
       /\ index (steps t) (currentStep s') <> None.
Proof.
  intros R Sel. destruct (reachable_step_in_range s R t Sel) as [_ Hr].
  split; [exact Hr|].
  unfold handleStepNavigation. rewrite Sel. cbn [fst currentStep].
  fold (lastStepIndex t).
  split; [|split].
  - destruct (Z.eqb_spec (currentStep s) (lastStepIndex t)); lia.
  - destruct (Z.eqb_spec (currentStep s) 0); lia.
  - intros direction.
    assert (0 <= match direction with
                 | next => Z.min (currentStep s + 1) (lastStepIndex t)
                 | prev => Z.max (currentStep s - 1) 0
                 end <= lastStepIndex t) as Hr'
      by (destruct direction; lia).
    split; [|split].
    + reflexivity.
    + exact Hr'.
    + apply index_in_range. exact Hr'.
Qed.

Lemma step_index_clamped_witness :
  let t := nth 0 tutorials (mkTutorial [] [] [] Beginner [] []) in
  let s := fst (handleStepNavigation next
             (fst (handleStepNavigation next
                (fst (handleTutorialSelect t initial))))) in
  currentStep s = 2
  /\ 0 <= currentStep s <= lastStepIndex t
  /\ currentStep (fst (handleStepNavigation next s))
     = (if currentStep s =? lastStepIndex t then currentStep s
        else currentStep s + 1)
  /\ currentStep (fst (handleStepNavigation prev s))
     = (if currentStep s =? 0 then currentStep s else currentStep s - 1)
  /\ forall direction,
       let s' := fst (handleStepNavigation direction s) in
       selectedTutorial s' = Some t
       /\ 0 <= currentStep s' <= lastStepIndex t
       /\ index (steps t) (currentStep s') <> None.
Proof.
  intros t s. split; [reflexivity|].
  apply (step_index_clamped s t).
  - repeat apply reach_navigate. apply reach_select.
    + left. reflexivity.
    + apply reach_initial.
  - reflexivity.
Defined.

(** The catalog matters: on a tutorial without steps, which the type admits
    and the catalog does not hold, going to the next step would leave the
    index at -1. *)
Remark next_on_empty_tutorial :
  currentStep
    (fst (handleStepNavigation next
       {| selectedTutorial := Some (mkTutorial [] [] [] Beginner [] []);
          currentStep := 0; completedSteps := [] |})) = -1.
Proof. reflexivity. Qed.

End TutorialProps.

(* ================================================================== *)
(** ** The exercise picker                                              *)
(* ================================================================== *)

Module ExerciseProps.
Import JS JSFacts NumberFacts ExerciseGenerator.

Lemma array_includes_In (a : list jsstring) (x : jsstring) :
  array_includes a x = true <-> In x a.
Proof.
  unfold array_includes. rewrite existsb_exists. split.
  - intros [y [Hy E]]. apply eqb_eq in E. now subst y.
  - intros H. exists x. split; [exact H | apply eqb_refl].
Qed.

Lemma array_includes_push (a : list jsstring) (x : jsstring) :
  array_includes (a ++ [x]) x = true.
Proof.
  apply array_includes_In, in_or_app. right. now left.
Qed.

(** C8. [markCompleted] does what the specification says of markComplete:
    it adds the identifier of the current exercise to the completed ones, and
    changes nothing when that identifier is among them already or when no
    exercise is selected; the handler run a second time on the state it
    produced changes nothing. *)
Theorem markCompleted_idempotent (s : State) :
  markComplete_spec s (markCompleted s)
  /\ markCompleted (markCompleted s) = markCompleted s
  /\ completedExercises (markCompleted (markCompleted s))
     = completedExercises (markCompleted s).
Proof.
  assert (markCompleted (markCompleted s) = markCompleted s) as Idem.
  { unfold markCompleted at 2.
    destruct (currentExercise s) as [e|] eqn:Cur.
    - destruct (array_includes (completedExercises s) (id e)) eqn:Inc.
      + cbn [negb]. unfold markCompleted. now rewrite Cur, Inc.
      + cbn [negb]. unfold markCompleted. cbn [currentExercise completedExercises].
        rewrite Cur, Inc, array_includes_push. reflexivity.
    - unfold markCompleted. now rewrite Cur. }
  split; [|split; [exact Idem | now rewrite Idem]].
  unfold markCompleted.
  destruct (currentExercise s) as [e|] eqn:Cur.
  - destruct (array_includes (completedExercises s) (id e)) eqn:Inc; cbn [negb].
    + apply (mark_present s e Cur). now apply array_includes_In.
    + rewrite <- Cur. apply (mark_added s e Cur).
      rewrite <- array_includes_In. congruence.
  - now apply mark_none.
Qed.

Lemma exercises_length : length exercises = 3%nat.
Proof. reflexivity. Qed.

Lemma exercises_below_3 (i : N) :
  (i < 3)%N ->
  exists exercise,
    nth_error exercises (N.to_nat i) = Some exercise
    /\ In exercise exercises
    /\ In (id exercise) [lit "1"; lit "2"; lit "3"].
Proof.
  intros H.
  assert (i = 0 \/ i = 1 \/ i = 2)%N as [-> | [-> | ->]] by lia.
  - eexists. split; [reflexivity|]. split; [left; reflexivity | left; reflexivity].
  - eexists. split; [reflexivity|].
    split; [right; left; reflexivity | right; left; reflexivity].
  - eexists. split; [reflexivity|].
    split; [right; right; left; reflexivity | right; right; left; reflexivity].
Qed.

(** C9. Whatever number of the unit interval [Math.random()] returns, the
    handler selects an exercise of the catalog, whose identifier is one of
    1, 2, 3, hides the solution, and hands the starter code of that exercise
    to the page, which makes it the current code. *)
Theorem generateRandomExercise_picks_from_catalog
        (random : unitDouble) (s : State) (page : Index.State) :
  unit_wf random ->
  exists exercise,
    In exercise exercises
    /\ In (id exercise) [lit "1"; lit "2"; lit "3"]
    /\ generateRandomExercise random s
       = Some ({| currentExercise := Some exercise;
                  completedExercises := completedExercises s;
                  showSolution := false |},
               starterCode exercise)
    /\ Index.currentCode (Index.handleLoadExercise (starterCode exercise) page)
       = starterCode exercise.
Proof.
  intros W. unfold generateRandomExercise. rewrite exercises_length.
  change (N.of_nat 3) with 3%N.
  destruct (exercises_below_3 _ (floor_times_3 random W))
    as [exercise [Hnth [Hin Hid]]].
  exists exercise. rewrite Hnth. repeat split; assumption.
Qed.

Lemma generateRandomExercise_picks_from_catalog_witness :
  unit_wf (mkUnit 5 3)
  /\ exists exercise,
    In exercise exercises
    /\ In (id exercise) [lit "1"; lit "2"; lit "3"]
    /\ generateRandomExercise (mkUnit 5 3) initial
       = Some ({| currentExercise := Some exercise;
                  completedExercises := completedExercises initial;
                  showSolution := false |},
               starterCode exercise)
    /\ Index.currentCode
         (Index.handleLoadExercise (starterCode exercise)
            (Index.mkState None [] []))
       = starterCode exercise.
Proof.
  assert (unit_wf (mkUnit 5 3)) as W by (split; reflexivity).
  split; [exact W|].
  apply (generateRandomExercise_picks_from_catalog
           (mkUnit 5 3) initial (Index.mkState None [] []) W).
Defined.

End ExerciseProps.

(* ================================================================== *)
(** ** More on the analysis panel                                       *)
(* ================================================================== *)

Module AnalyzerMore.
Import JS JSFacts CodeAnalyzer AnalyzerProps.

Lemma includes_length (s pat : jsstring) :
  includes s pat = true -> length pat <= length s.
Proof.
  intros H. apply includes_spec in H. destruct H as [pre [post ->]].
  rewrite !length_app. lia.
Qed.

Lemma includes_trans (s mid pat : jsstring) :
  includes s mid = true -> includes mid pat = true -> includes s pat = true.
Proof.
  rewrite !includes_spec. intros [a [b ->]] [c [d ->]].
  exists (a ++ c), (d ++ b). now rewrite <- !app_assoc.
Qed.

Lemma split_piece_length (s : jsstring) (sep : codeUnit) (piece : jsstring) :
  In piece (split s sep) -> length piece <= length s.
Proof.
  revert piece. induction s as [|c s IH]; intros piece H.
  - destruct H as [<- | []]. apply Nat.le_refl.
  - cbn [split] in H. destruct (c =? sep)%N.
    + destruct H as [<- | H]; [simpl; lia|].
      apply IH in H. simpl. lia.
    + destruct (split s sep) as [|p ps] eqn:E.
      * destruct H as [<- | []]. simpl. lia.
      * destruct H as [<- | H].
        -- specialize (IH p (or_introl eq_refl)). simpl. lia.
        -- specialize (IH piece (or_intror H)). simpl. lia.
Qed.

Lemma long_line_length (code : jsstring) :
  fires_long_line code = true -> 120 < length code.
Proof.
  unfold fires_long_line. rewrite existsb_exists.
  intros [piece [Hin Hlen]]. apply Nat.ltb_lt in Hlen.
  apply split_piece_length in Hin. lia.
Qed.

(** Which findings a choice of fired rules selects. *)
Lemma in_selected (b1 b2 b3 b4 b5 : bool) (r : AnalysisResult) :
  In r (selected [b1; b2; b3; b4; b5]) <->
  (b1 = true /\ r = var_warning)
  \/ (b2 = true /\ r = console_log_info)
  \/ (b3 = true /\ r = extract_functions_suggestion)
  \/ (b4 = true /\ r = long_line_warning)
  \/ (b5 = true /\ r = for_forEach_suggestion).
Proof.
  unfold selected, findings.
  destruct b1, b2, b3, b4, b5; cbn [combine filter fst map snd In];
    intuition congruence.
Qed.

Lemma findings_distinct : NoDup (map kind findings).
Proof.
  cbn. repeat constructor; cbn; intuition discriminate.
Qed.

(** X1. No finding occurs twice among the findings of the callback. *)
Theorem analyze_no_duplicates (code language : jsstring) :
  NoDup (analyzeCode_results code language).
Proof.
  rewrite analyzeCode_results_spec. unfold analyze_spec, fired, selected.
  apply (NoDup_map_inv kind).
  destruct (fires_var code), (fires_console_log code language),
    (fires_extract_functions code), (fires_long_line code),
    (fires_for_forEach code);
    cbn; repeat constructor; cbn; intuition discriminate.
Qed.

Ltac other_finding :=
  match goal with
  | H : _ = _ :> AnalysisResult |- _ =>
      apply (f_equal kind) in H; discriminate H
  end.

Lemma var_warning_iff (code language : jsstring) :
  In var_warning (analyzeCode_results code language)
  <-> fires_var code = true.
Proof.
  rewrite analyzeCode_results_spec. unfold analyze_spec, fired.
  rewrite in_selected. intuition; try other_finding.
Qed.

Lemma console_log_info_iff (code language : jsstring) :
  In console_log_info (analyzeCode_results code language)
  <-> fires_console_log code language = true.
Proof.
  rewrite analyzeCode_results_spec. unfold analyze_spec, fired.
  rewrite in_selected. intuition; try other_finding.
Qed.

Lemma extract_functions_iff (code language : jsstring) :
  In extract_functions_suggestion (analyzeCode_results code language)
  <-> fires_extract_functions code = true.
Proof.
  rewrite analyzeCode_results_spec. unfold analyze_spec, fired.
  rewrite in_selected. intuition; try other_finding.
Qed.

Lemma long_line_iff (code language : jsstring) :
  In long_line_warning (analyzeCode_results code language)
  <-> fires_long_line code = true.
Proof.
  rewrite analyzeCode_results_spec. unfold analyze_spec, fired.
  rewrite in_selected. intuition; try other_finding.
Qed.

Lemma for_forEach_iff (code language : jsstring) :
  In for_forEach_suggestion (analyzeCode_results code language)
  <-> fires_for_forEach code = true.
Proof.
  rewrite analyzeCode_results_spec. unfold analyze_spec, fired.
  rewrite in_selected. intuition; try other_finding.
Qed.

(** X2. The suggestion of functional array methods is emitted exactly when
    the code contains [forEach]: the test for [for] adds nothing, every text
    with [forEach] in it having [for] in it. *)
Theorem forEach_alone_decides (code language : jsstring) :
  In for_forEach_suggestion (analyzeCode_results code language)
  <-> exists pre post, code = pre ++ lit "forEach" ++ post.
Proof.
  rewrite for_forEach_iff, <- includes_spec. unfold fires_for_forEach.
  destruct (includes code (lit "forEach")) eqn:E.
  - rewrite (includes_trans code (lit "forEach") (lit "for") E eq_refl).
    tauto.
  - rewrite andb_false_r. tauto.
Qed.

(** X3. The long-line warning is emitted only for a code of more than 120
    code units, and then the suggestion to extract functions comes with it
    unless the code contains [function] or [=>]. *)
Theorem long_line_brings_extract_functions (code language : jsstring) :
  In long_line_warning (analyzeCode_results code language) ->
  120 < length code
  /\ (In extract_functions_suggestion (analyzeCode_results code language)
      \/ includes code (lit "function") = true
      \/ includes code (lit "=>") = true).
Proof.
  rewrite long_line_iff, extract_functions_iff. intros H.
  apply long_line_length in H. split; [exact H|].
  unfold fires_extract_functions.
  destruct (includes code (lit "function")); [tauto|].
  destruct (includes code (lit "=>")); [tauto|].
  left. cbn [orb negb andb]. apply Nat.ltb_lt. lia.
Qed.

Lemma long_line_brings_extract_functions_witness :
  120 < length (repeat 97%N 121)
  /\ (In extract_functions_suggestion
         (analyzeCode_results (repeat 97%N 121) (lit "python"))
      \/ includes (repeat 97%N 121) (lit "function") = true
      \/ includes (repeat 97%N 121) (lit "=>") = true).
Proof.
  apply (long_line_brings_extract_functions (repeat 97%N 121) (lit "python")).
  vm_compute. tauto.
Defined.

(** X4. The language matters only through being [javascript] or not: for
    two languages other than [javascript] the findings are the same, and the
    console.log-info is not among them. *)
Theorem language_matters_only_as_javascript (code l1 l2 : jsstring) :
  l1 <> lit "javascript" -> l2 <> lit "javascript" ->
  analyzeCode_results code l1 = analyzeCode_results code l2
  /\ ~ In console_log_info (analyzeCode_results code l1).
Proof.
  intros H1 H2. apply eqb_neq in H1, H2. split.
  - rewrite !analyzeCode_results_spec. unfold analyze_spec, fired,
      fires_console_log. now rewrite H1, H2.
  - rewrite console_log_info_iff. unfold fires_console_log.
    rewrite H1, andb_false_r. discriminate.
Qed.

Lemma language_matters_only_as_javascript_witness :
  analyzeCode_results (lit "console.log(1)") (lit "python")
  = analyzeCode_results (lit "console.log(1)") (lit "react")
  /\ ~ In console_log_info
         (analyzeCode_results (lit "console.log(1)") (lit "python")).
Proof.
  apply (language_matters_only_as_javascript
           (lit "console.log(1)") (lit "python") (lit "react"));
    discriminate.
Defined.

(** X5. A code of fewer than four code units, the empty code among them,
    gets no finding at all. *)
Theorem short_code_no_findings (code language : jsstring) :
  length code < 4 -> analyzeCode_results code language = [].
Proof.
  intros H. rewrite analyzeCode_results_spec. unfold analyze_spec, fired.
  assert (fires_var code = false) as ->.
  { unfold fires_var. destruct (includes code (lit "var ")) eqn:E;
      [apply includes_length in E; cbn in E; lia | reflexivity]. }
  assert (fires_console_log code language = false) as ->.
  { unfold fires_console_log.
    destruct (includes code (lit "console.log")) eqn:E;
      [apply includes_length in E; cbn in E; lia | reflexivity]. }
  assert (fires_extract_functions code = false) as ->.
  { unfold fires_extract_functions.
    replace (50 <? length code) with false
      by (symmetry; apply Nat.ltb_ge; lia).
    apply andb_false_r. }
  assert (fires_long_line code = false) as ->.
  { destruct (fires_long_line code) eqn:E; [|reflexivity].
    apply long_line_length in E. lia. }
  assert (fires_for_forEach code = false) as ->.
  { unfold fires_for_forEach.
    destruct (includes code (lit "forEach")) eqn:E;
      [apply includes_length in E; cbn in E; lia | apply andb_false_r]. }
  reflexivity.
Qed.

Lemma short_code_no_findings_witness :
  analyzeCode_results (lit "for") (lit "javascript") = [].
Proof.
  apply (short_code_no_findings (lit "for") (lit "javascript")).
  cbn. lia.
Defined.

(** Every timer was started on a code that is not blank, and the spinner
    turns only while a timer is pending. *)
Lemma reachable_timers (s : State) :
  reachable s ->
  Forall (fun p => truthy (trim (fst p)) = true) (timers s)
  /\ (isAnalyzing s = true -> timers s <> []).
Proof.
  induction 1 as [code0 language0 | code' language' s _ [IHt IHa]
                 | s _ [IHt IHa]].
  - unfold mount, effect. cbn [code].
    destruct (truthy (trim code0)) eqn:T; cbn.
    + split; [repeat constructor; exact T | discriminate].
    + split; [constructor | discriminate].
  - unfold rerender.
    destruct (eqb code' (code s) && eqb language' (language s)).
    + cbn. split; assumption.
    + unfold effect. cbn [code].
      destruct (truthy (trim code')) eqn:T; cbn.
      * split.
        -- apply Forall_app. split; [exact IHt | repeat constructor; exact T].
        -- intros _ E. apply app_eq_nil in E. destruct E; discriminate.
      * split; assumption.
  - unfold timeout. destruct (timers s) as [|[c l] rest] eqn:E.
    + rewrite E. split; assumption.
    + cbn. split; [now inversion IHt | discriminate].
Qed.

(** X6. Whenever the spinner of the panel turns, an analysis is pending:
    a timer is left to fire, which stops it. *)
Theorem spinner_has_pending_timer (s : State) :
  reachable s -> panel s = Spinner ->
  exists code0 language0 rest,
    timers s = (code0, language0) :: rest
    /\ isAnalyzing (timeout s) = false.
Proof.
  intros R P. destruct (reachable_timers s R) as [_ Ha].
  assert (isAnalyzing s = true) as A.
  { unfold panel in P. destruct (isAnalyzing s); [reflexivity|].
    destruct (0 <? length (analysis s)); discriminate. }
  specialize (Ha A). unfold timeout.
  destruct (timers s) as [|[c l] rest]; [congruence|].
  exists c, l, rest. split; reflexivity.
Qed.

Lemma spinner_has_pending_timer_witness :
  exists code0 language0 rest,
    timers (mount (lit "let x") (lit "javascript"))
    = (code0, language0) :: rest
    /\ isAnalyzing (timeout (mount (lit "let x") (lit "javascript"))) = false.
Proof.
  apply (spinner_has_pending_timer (mount (lit "let x") (lit "javascript"))).
  - apply reach_mount.
  - reflexivity.
Defined.

(** X7. Blank code is never analysed: every pending timer was started on a
    code that is not blank, and the findings shown are none or those of a
    code that is not blank. *)
Theorem blank_code_never_analysed (s : State) :
  reachable s ->
  Forall (fun p => truthy (trim (fst p)) = true) (timers s)
  /\ (analysis s = []
      \/ exists code0 language0,
           truthy (trim code0) = true
           /\ analysis s = analyzeCode_results code0 language0).
Proof.
  induction 1 as [code0 language0 | code' language' s R [_ IH]
                 | s R [_ IH]].
  - split; [apply reachable_timers, reach_mount|].
    left. unfold mount, effect. cbn [code].
    destruct (truthy (trim code0)); reflexivity.
  - split; [apply reachable_timers, reach_rerender, R|].
    unfold rerender.
    destruct (eqb code' (code s) && eqb language' (language s));
      [exact IH|].
    unfold effect. cbn [code]. destruct (truthy (trim code')); exact IH.
  - split; [apply reachable_timers, reach_timeout, R|].
    destruct (reachable_timers s R) as [Ht _].
    unfold timeout. destruct (timers s) as [|[c l] rest]; [exact IH|].
    right. exists c, l. split; [now inversion Ht | reflexivity].
Qed.

Lemma blank_code_never_analysed_witness :
  let s := rerender (lit "  ") (lit "javascript")
             (mount (lit "var x") (lit "javascript")) in
  Forall (fun p => truthy (trim (fst p)) = true) (timers s)
  /\ (analysis s = []
      \/ exists code0 language0,
           truthy (trim code0) = true
           /\ analysis s = analyzeCode_results code0 language0).
Proof.
  intros s. apply (blank_code_never_analysed s).
  apply reach_rerender, reach_mount.
Defined.

(** While the code is not blank, the analysis started last is the one of
    the current props: it is the last pending timer, or its findings are
    shown. *)
Lemma reachable_latest (s : State) :
  reachable s -> truthy (trim (code s)) = true ->
  match timers s with
  | [] => analysis s = analyzeCode_results (code s) (language s)
  | _ :: _ => exists first, timers s = first ++ [(code s, language s)]
  end.
Proof.
  induction 1 as [code0 language0 | code' language' s _ IH | s _ IH].
  - unfold mount, effect. cbn [code].
    destruct (truthy (trim code0)) eqn:T0;
      cbn [code timers analyzeCode language app]; intros T.
    + exists []. reflexivity.
    + congruence.
  - unfold rerender.
    destruct (eqb code' (code s) && eqb language' (language s)) eqn:D.
    + apply andb_true_iff in D. destruct D as [Dc Dl].
      apply eqb_eq in Dc, Dl. subst code' language'. cbn. exact IH.
    + unfold effect. cbn [code].
      destruct (truthy (trim code')) eqn:T0;
        cbn [code timers analyzeCode language]; intros T; [|congruence].
      destruct (timers s ++ [(code', language')]) eqn:E.
      * apply app_eq_nil in E. destruct E; discriminate.
      * rewrite <- E. exists (timers s). reflexivity.
  - unfold timeout. destruct (timers s) as [|[c l] rest] eqn:E.
    + rewrite E. exact IH.
    + cbn. intros T. destruct (IH T) as [first F].
      destruct rest as [|p rest].
      * destruct first as [|q first]; [now inversion F|].
        inversion F as [[Fq Fr]]. symmetry in Fr.
        apply app_eq_nil in Fr. destruct Fr; discriminate.
      * destruct first as [|q first]; [inversion F|].
        inversion F as [[Fq Fr]]. exists first. exact Fr.
Qed.

(** X8. Once no timer is pending, the panel shows the findings of the
    current code and language, provided the code is not blank: the cards of
    these findings, or the line that no issue was found when there are
    none. *)
Theorem settled_panel_is_current (s : State) :
  reachable s -> truthy (trim (code s)) = true -> timers s = [] ->
  analysis s = analyzeCode_results (code s) (language s)
  /\ isAnalyzing s = false
  /\ panel s = match analyzeCode_results (code s) (language s) with
               | [] => NoIssues
               | _ :: _ => Cards (analyzeCode_results (code s) (language s))
               end.
Proof.
  intros R T E. pose proof (reachable_latest s R T) as L.
  rewrite E in L.
  destruct (reachable_timers s R) as [_ Ha].
  assert (isAnalyzing s = false) as A
    by (destruct (isAnalyzing s); [now destruct Ha | reflexivity]).
  split; [exact L|]. split; [exact A|].
  unfold panel. rewrite A, L.
  destruct (analyzeCode_results (code s) (language s)); reflexivity.
Qed.

Lemma settled_panel_is_current_witness :
  let s := timeout (timeout
             (rerender (lit "var y") (lit "javascript")
                (mount (lit "let x") (lit "javascript")))) in
  analysis s = analyzeCode_results (code s) (language s)
  /\ isAnalyzing s = false
  /\ panel s = match analyzeCode_results (code s) (language s) with
               | [] => NoIssues
               | _ :: _ => Cards (analyzeCode_results (code s) (language s))
               end.
Proof.
  intros s. apply (settled_panel_is_current s).
  - repeat apply reach_timeout. apply reach_rerender, reach_mount.
  - reflexivity.
  - reflexivity.
Defined.

Lemma drain_step (s : State) (p : jsstring * jsstring)
      (rest : list (jsstring * jsstring)) :
  timers s = p :: rest -> drain s = drain (timeout s).
Proof.
  intros E. unfold drain. rewrite E. cbn [length].
  rewrite Nat.iter_succ_r.
  replace (length (timers (timeout s))) with (length rest);
    [reflexivity|].
  unfold timeout. rewrite E. destruct p. reflexivity.
Qed.

(** X9. When all the pending timers have fired, the findings shown are
    those of the analysis started last, whatever the earlier ones
    published in between; the spinner is off and no timer is left. *)
Theorem last_started_analysis_wins (s : State)
        (first : list (jsstring * jsstring)) (code0 language0 : jsstring) :
  timers s = first ++ [(code0, language0)] ->
  analysis (drain s) = analyzeCode_results code0 language0
  /\ isAnalyzing (drain s) = false
  /\ timers (drain s) = [].
Proof.
  revert s. induction first as [|p first IH]; intros s E.
  - unfold drain. rewrite E. cbn. unfold timeout. rewrite E.
    repeat split.
  - rewrite (drain_step s p (first ++ [(code0, language0)]) E).
    apply IH. unfold timeout. rewrite E. destruct p. reflexivity.
Qed.

Lemma last_started_analysis_wins_witness :
  let s := rerender (lit "let y") (lit "javascript")
             (mount (lit "var x") (lit "javascript")) in
  analysis (drain s) = analyzeCode_results (lit "let y") (lit "javascript")
  /\ isAnalyzing (drain s) = false
  /\ timers (drain s) = [].
Proof.
  intros s.
  apply (last_started_analysis_wins s [(lit "var x", lit "javascript")]).
  reflexivity.
Defined.

End AnalyzerMore.

(* ================================================================== *)
(** ** More on the debug panel                                          *)
(* ================================================================== *)

Module DebugMore.
Import JS JSFacts DebugHelper DebugProps.

Lemma analyzeError_always_catalog (toLowerCase : jsstring -> jsstring)
      (errorDescription code : jsstring) :
  analyzeError_suggestions toLowerCase errorDescription code = commonIssues.
Proof.
  rewrite analyzeError_cases. unfold kept. rewrite filter_const.
  destruct (filter_predicate (toLowerCase errorDescription) code);
    reflexivity.
Qed.

Section Panel.

Variable toLowerCase : jsstring -> jsstring.

(** X10. Whatever is typed, clicked and rendered, the debug panel shows no
    suggestion at all or the whole catalog of four: what it shows never
    depends on the description or on the code. *)
Theorem debug_panel_shows_nothing_or_catalog (s : State) :
  reachable toLowerCase s ->
  suggestions s = [] \/ suggestions s = commonIssues.
Proof.
  induction 1 as [code0 | code' s _ IH | value s _ IH | s _ IH | s _ IH].
  - left. reflexivity.
  - exact IH.
  - exact IH.
  - unfold click. destruct (buttonDisabled s); exact IH.
  - unfold timeout. destruct (timers s) as [|[d c] rest]; [exact IH|].
    right. apply analyzeError_always_catalog.
Qed.

(** X11. The button is disabled while an analysis runs and while the
    description is blank, so at most one analysis is pending at any time,
    the flag [isAnalyzing] is up exactly while one is, and an analysis is
    only ever started on a description that is not blank. *)
Theorem debug_one_analysis_at_a_time (s : State) :
  reachable toLowerCase s ->
  length (timers s) <= 1
  /\ (isAnalyzing s = true <-> timers s <> [])
  /\ Forall (fun p => truthy (trim (fst p)) = true) (timers s).
Proof.
  induction 1 as [code0 | code' s _ IH | value s _ IH | s _ IH | s _ IH].
  - cbn. repeat split; try lia; try discriminate; try congruence.
    constructor.
  - exact IH.
  - exact IH.
  - destruct IH as [IHn [IHa IHt]]. unfold click, buttonDisabled.
    destruct (isAnalyzing s) eqn:A; [repeat split; tauto|].
    destruct (truthy (trim (errorDescription s))) eqn:T;
      cbn [orb negb]; [|rewrite A; repeat split; tauto].
    assert (timers s = []) as E.
    { destruct (timers s); [reflexivity|].
      assert (false = true); [apply IHa; discriminate | discriminate]. }
    cbn. rewrite E. cbn. repeat split; try lia; try discriminate.
    repeat constructor. exact T.
  - destruct IH as [IHn [IHa IHt]]. unfold timeout.
    destruct (timers s) as [|[d c] rest] eqn:E.
    + rewrite E. repeat split; tauto.
    + cbn in IHn. destruct rest; [|cbn in IHn; lia].
      cbn. repeat split; try lia; try discriminate; try congruence.
      constructor.
Qed.

End Panel.

Lemma debug_panel_shows_nothing_or_catalog_witness :
  let s := timeout toLowerCase_ascii
             (click (setErrorDescription (lit "loop") (mount (lit "x")))) in
  suggestions s = [] \/ suggestions s = commonIssues.
Proof.
  intros s. apply (debug_panel_shows_nothing_or_catalog toLowerCase_ascii s).
  apply reach_timeout, reach_click, reach_typing, reach_mount.
Defined.

Lemma debug_one_analysis_at_a_time_witness :
  let s := click (click (setErrorDescription (lit "loop") (mount (lit "x"))))
  in
  length (timers s) <= 1
  /\ (isAnalyzing s = true <-> timers s <> [])
  /\ Forall (fun p => truthy (trim (fst p)) = true) (timers s).
Proof.
  intros s. apply (debug_one_analysis_at_a_time toLowerCase_ascii s).
  apply reach_click, reach_click, reach_typing, reach_mount.
Defined.

End DebugMore.

(* ================================================================== *)
(** ** More on the tutorial walker                                      *)
(* ================================================================== *)

Module TutorialMore.
Import JS JSFacts TutorialSystem TutorialProps.
Local Open Scope Z_scope.

Lemma includes_In (a : list jsstring) (x : jsstring) :
  array_includes a x = true <-> In x a.
Proof.
  unfold array_includes. rewrite existsb_exists. split.
  - intros [y [Hy E]]. apply eqb_eq in E. now subst y.
  - intros H. exists x. split; [exact H | apply eqb_refl].
Qed.

Lemma set_add_In (set : list jsstring) (x y : jsstring) :
  In y (set_add set x) <-> In y set \/ y = x.
Proof.
  unfold set_add. destruct (array_includes set x) eqn:E.
  - apply includes_In in E. split; [tauto|]. intros [H | ->]; assumption.
  - rewrite in_app_iff. cbn. intuition.
Qed.

Lemma index_In (A : Type) (l : list A) (i : Z) (x : A) :
  index l i = Some x -> In x l.
Proof.
  unfold index. destruct (i <? 0); [discriminate|]. apply nth_error_In.
Qed.

(** Every step of the catalog carries code, and not the empty string. *)
Lemma catalog_steps_have_code (t : Tutorial) (step : TutorialStep) :
  In t tutorials -> In step (steps t) ->
  exists c, code step = Some c /\ truthy c = true.
Proof.
  unfold tutorials. cbn [In].
  intros [<- | [<- | []]]; cbn [steps In];
    intuition (subst step; eexists; split; reflexivity).
Qed.

Lemma stepCode_in_range (t : Tutorial) (i : Z) :
  In t tutorials -> 0 <= i <= lastStepIndex t ->
  exists step c,
    index (steps t) i = Some step /\ code step = Some c
    /\ truthy c = true /\ stepCode t i = Some c.
Proof.
  intros Hin Hr. unfold stepCode.
  destruct (index (steps t) i) as [step|] eqn:E;
    [|now apply index_in_range in E].
  destruct (catalog_steps_have_code t step Hin (index_In _ _ _ _ E))
    as [c [Hc Ht]].
  exists step, c. rewrite Hc, Ht. repeat split.
Qed.

(** X12. Selecting a tutorial of the catalog always loads code: the code of
    its first step is handed to the page, which makes it the current code
    and opens the editor tab. *)
Theorem selecting_loads_first_step_code
        (t : Tutorial) (s : State) (page : Index.State) :
  In t tutorials ->
  exists step c,
    nth_error (steps t) 0 = Some step
    /\ code step = Some c
    /\ snd (handleTutorialSelect t s) = Some c
    /\ Index.currentCode (Index.handleLoadTutorialCode c page) = c
    /\ Index.activeTab (Index.handleLoadTutorialCode c page) = lit "editor".
Proof.
  intros Hin.
  destruct (stepCode_in_range t 0 Hin) as [step [c [E [Hc [_ Hs]]]]].
  { pose proof (catalog_has_steps t Hin). lia. }
  exists step, c. repeat split; assumption.
Qed.

Lemma selecting_loads_first_step_code_witness :
  let t := nth 1 tutorials (mkTutorial [] [] [] Beginner [] []) in
  exists step c,
    nth_error (steps t) 0 = Some step
    /\ code step = Some c
    /\ snd (handleTutorialSelect t initial) = Some c
    /\ Index.currentCode
         (Index.handleLoadTutorialCode c Index.initial) = c
    /\ Index.activeTab
         (Index.handleLoadTutorialCode c Index.initial) = lit "editor".
Proof.
  intros t. apply (selecting_loads_first_step_code t initial Index.initial).
  right. left. reflexivity.
Defined.

(** X13. Every move to the next or to the previous step loads code: the code
    of the step the index now points at is handed to the page, replacing the
    current code whatever it was. *)
Theorem navigation_loads_step_code
        (s : State) (t : Tutorial) (direction : Direction)
        (page : Index.State) :
  reachable s -> selectedTutorial s = Some t ->
  exists step c,
    index (steps t) (currentStep (fst (handleStepNavigation direction s)))
    = Some step
    /\ code step = Some c
    /\ snd (handleStepNavigation direction s) = Some c
    /\ Index.currentCode (Index.handleLoadTutorialCode c page) = c.
Proof.
  intros R Sel.
  pose proof (reachable_step_in_range _ (reach_navigate direction s R)) as I.
  unfold handleStepNavigation in *. rewrite Sel in *. cbn [fst snd] in *.
  destruct (I t eq_refl) as [Hin Hr]. cbn [currentStep] in *.
  destruct (stepCode_in_range t _ Hin Hr) as [step [c [E [Hc [_ Hs]]]]].
  exists step, c. repeat split; assumption.
Qed.

Lemma navigation_loads_step_code_witness :
  let t := nth 0 tutorials (mkTutorial [] [] [] Beginner [] []) in
  let s := fst (handleTutorialSelect t initial) in
  exists step c,
    index (steps t) (currentStep (fst (handleStepNavigation next s)))
    = Some step
    /\ code step = Some c
    /\ snd (handleStepNavigation next s) = Some c
    /\ Index.currentCode
         (Index.handleLoadTutorialCode c Index.initial) = c.
Proof.
  intros t s. apply (navigation_loads_step_code s t next Index.initial).
  - apply reach_select; [left; reflexivity | apply reach_initial].
  - reflexivity.
Defined.

(** X14. In no state the component can reach does marking the step as
    completed fail: the step under the index exists, its identifier joins
    the completed ones, the completion button is disabled afterwards, and
    neither the tutorial nor the index changes. *)
Theorem marking_never_fails (s : State) (t : Tutorial) :
  reachable s -> selectedTutorial s = Some t ->
  exists step s',
    index (steps t) (currentStep s) = Some step
    /\ markStepCompleted s = Some s'
    /\ In (step_id step) (completedSteps s')
    /\ markDisabled t s' = Some true
    /\ selectedTutorial s' = Some t
    /\ currentStep s' = currentStep s.
Proof.
  intros R Sel. destruct (reachable_step_in_range s R t Sel) as [_ Hr].
  destruct (index (steps t) (currentStep s)) as [step|] eqn:E;
    [|now apply index_in_range in E].
  unfold markStepCompleted. rewrite Sel, E.
  eexists. eexists. split; [reflexivity|]. split; [reflexivity|].
  cbn [completedSteps selectedTutorial currentStep].
  assert (In (step_id step) (set_add (completedSteps s) (step_id step)))
    as Hin by (apply set_add_In; now right).
  split; [exact Hin|]. split; [|split; reflexivity].
  unfold markDisabled. cbn [currentStep completedSteps]. rewrite E.
  f_equal. now apply includes_In.
Qed.

Lemma marking_never_fails_witness :
  let t := nth 0 tutorials (mkTutorial [] [] [] Beginner [] []) in
  let s := fst (handleStepNavigation next
             (fst (handleTutorialSelect t initial))) in
  exists step s',
    index (steps t) (currentStep s) = Some step
    /\ markStepCompleted s = Some s'
    /\ In (step_id step) (completedSteps s')
    /\ markDisabled t s' = Some true
    /\ selectedTutorial s' = Some t
    /\ currentStep s' = currentStep s.
Proof.
  intros t s. apply (marking_never_fails s t).
  - apply reach_navigate, reach_select;
      [left; reflexivity | apply reach_initial].
  - reflexivity.
Defined.

(** X15. Marking a step completed a second time changes nothing, and marking
    never removes an identifier from the completed ones. *)
Theorem markStepCompleted_idempotent (s s' : State) :
  markStepCompleted s = Some s' ->
  markStepCompleted s' = Some s'
  /\ incl (completedSteps s) (completedSteps s').
Proof.
  unfold markStepCompleted.
  destruct (selectedTutorial s) as [t|] eqn:Sel.
  - destruct (index (steps t) (currentStep s)) as [step|] eqn:E;
      [|discriminate].
    intros H. inversion H; subst s'. clear H.
    cbn [selectedTutorial currentStep completedSteps]. rewrite E.
    split.
    + do 2 f_equal. unfold set_add at 1.
      replace (array_includes (set_add (completedSteps s) (step_id step))
                 (step_id step)) with true; [reflexivity|].
      symmetry. apply includes_In, set_add_In. now right.
    + intros y Hy. apply set_add_In. now left.
  - intros H. inversion H; subst s'. rewrite Sel.
    split; [reflexivity | apply incl_refl].
Qed.

Lemma markStepCompleted_idempotent_witness :
  let t := nth 0 tutorials (mkTutorial [] [] [] Beginner [] []) in
  let s := fst (handleTutorialSelect t initial) in
  let s' := {| selectedTutorial := Some t; currentStep := 0;
               completedSteps := [lit "1"] |} in
  markStepCompleted s' = Some s'
  /\ incl (completedSteps s) (completedSteps s').
Proof.
  intros t s s'. apply (markStepCompleted_idempotent s s'). reflexivity.
Defined.

(** X16. Completion is recorded under the identifier of the step alone:
    once a step is marked, every step with the same identifier, of whichever
    tutorial, is shown as completed when that tutorial is opened (the steps
    1 and 2 of the two tutorials of the catalog share their
    identifiers). *)
Theorem completion_shared_between_tutorials
        (s s' : State) (t t' : Tutorial) (step step' : TutorialStep) :
  selectedTutorial s = Some t ->
  index (steps t) (currentStep s) = Some step ->
  markStepCompleted s = Some s' ->
  In step' (steps t') ->
  step_id step' = step_id step ->
  array_includes
    (completedSteps (fst (handleTutorialSelect t' (deselect s'))))
    (step_id step') = true.
Proof.
  intros Sel E M _ Hid. unfold markStepCompleted in M.
  rewrite Sel, E in M. inversion M; subst s'. cbn. rewrite Hid.
  apply includes_In, set_add_In. now right.
Qed.

Lemma completion_shared_between_tutorials_witness :
  let js := nth 0 tutorials (mkTutorial [] [] [] Beginner [] []) in
  let react := nth 1 tutorials (mkTutorial [] [] [] Beginner [] []) in
  let s := fst (handleTutorialSelect js initial) in
  exists s' step',
    markStepCompleted s = Some s'
    /\ nth_error (steps react) 0 = Some step'
    /\ markDisabled react (fst (handleTutorialSelect react (deselect s')))
       = Some true.
Proof.
  intros js react s.
  destruct (markStepCompleted s) as [s'|] eqn:M; [|discriminate M].
  destruct (nth_error (steps react) 0) as [step'|] eqn:N; [|discriminate N].
  destruct (index (steps js) (currentStep s)) as [step|] eqn:E;
    [|discriminate E].
  exists s', step'. split; [reflexivity|]. split; [reflexivity|].
  unfold markDisabled. cbn [handleTutorialSelect fst currentStep index].
  change (index (steps react) 0) with (nth_error (steps react) 0).
  rewrite N. f_equal.
  apply (completion_shared_between_tutorials s s' js react step step').
  - reflexivity.
  - exact E.
  - exact M.
  - apply (nth_error_In _ _ N).
  - inversion N. inversion E. reflexivity.
Defined.

(** X17. The navigation buttons are disabled exactly when their handler would
    leave the index where it is: Next at the last step, Previous at
    step 0. *)
Theorem buttons_disabled_iff_no_move (s : State) (t : Tutorial) :
  reachable s -> selectedTutorial s = Some t ->
  (nextDisabled t s = true
   <-> currentStep (fst (handleStepNavigation next s)) = currentStep s)
  /\ (prevDisabled s = true
      <-> currentStep (fst (handleStepNavigation prev s)) = currentStep s).
Proof.
  intros R Sel. destruct (reachable_step_in_range s R t Sel) as [_ Hr].
  unfold handleStepNavigation, nextDisabled, prevDisabled. rewrite Sel.
  cbn [fst currentStep]. unfold lastStepIndex in Hr.
  rewrite !Z.eqb_eq. lia.
Qed.

Lemma buttons_disabled_iff_no_move_witness :
  let t := nth 0 tutorials (mkTutorial [] [] [] Beginner [] []) in
  let s := fst (handleTutorialSelect t initial) in
  (nextDisabled t s = true
   <-> currentStep (fst (handleStepNavigation next s)) = currentStep s)
  /\ (prevDisabled s = true
      <-> currentStep (fst (handleStepNavigation prev s)) = currentStep s).
Proof.
  intros t s. apply (buttons_disabled_iff_no_move s t).
  - apply reach_select; [left; reflexivity | apply reach_initial].
  - reflexivity.
Defined.

End TutorialMore.

(* ================================================================== *)
(** ** More on the exercise picker                                      *)
(* ================================================================== *)

Module ExerciseMore.
Import JS JSFacts NumberFacts ExerciseGenerator ExerciseProps.

Lemma catalog_ids : map id exercises = [lit "1"; lit "2"; lit "3"].
Proof. reflexivity. Qed.

Lemma generate_current (random : unitDouble) (s s' : State)
      (code : jsstring) :
  generateRandomExercise random s = Some (s', code) ->
  completedExercises s' = completedExercises s
  /\ exists exercise,
       In exercise exercises /\ currentExercise s' = Some exercise.
Proof.
  unfold generateRandomExercise.
  destruct (nth_error exercises _) as [exercise|] eqn:E; [|discriminate].
  intros H. inversion H; subst. cbn. split; [reflexivity|].
  exists exercise. split; [exact (nth_error_In _ _ E) | reflexivity].
Qed.

Lemma markCompleted_cases (s : State) :
  markCompleted s = s
  \/ exists exercise,
       currentExercise s = Some exercise
       /\ ~ In (id exercise) (completedExercises s)
       /\ markCompleted s
          = {| currentExercise := currentExercise s;
               completedExercises := completedExercises s ++ [id exercise];
               showSolution := showSolution s |}.
Proof.
  unfold markCompleted. destruct (currentExercise s) as [e|]; [|now left].
  destruct (array_includes (completedExercises s) (id e)) eqn:Inc;
    cbn [negb]; [now left|].
  right. exists e. repeat split.
  rewrite <- array_includes_In. congruence.
Qed.

Lemma reachable_completed (s : State) :
  reachable s ->
  NoDup (completedExercises s)
  /\ incl (completedExercises s) (map id exercises)
  /\ (forall exercise,
        currentExercise s = Some exercise -> In exercise exercises).
Proof.
  induction 1 as [ | random s s' code W _ IH G | s _ IH | s _ IH ].
  - cbn. repeat split; [constructor | intros x [] | discriminate].
  - destruct IH as [IHn [IHi _]].
    destruct (generate_current random s s' code G) as [-> [e [He Hc]]].
    repeat split; try assumption.
    intros exercise H. congruence.
  - destruct IH as [IHn [IHi IHc]].
    destruct (markCompleted_cases s) as [-> | [e [Cur [Hno ->]]]];
      [repeat split; assumption|].
    cbn [completedExercises currentExercise]. repeat split.
    + apply NoDup_app; [exact IHn | repeat constructor; intros [] |].
      intros x Hx [<- | []]. contradiction.
    + apply incl_app; [exact IHi|]. intros x [<- | []].
      apply in_map. now apply IHc.
    + exact IHc.
  - exact IH.
Qed.

(** X18. The completed exercises never hold an identifier twice and hold
    identifiers of the catalog only: at most three exercises are shown as
    completed and at most 60 points. *)
Theorem completed_exercises_bounded (s : State) :
  reachable s ->
  NoDup (completedExercises s)
  /\ incl (completedExercises s) [lit "1"; lit "2"; lit "3"]
  /\ completedShown s <= 3
  /\ pointsShown s <= 60.
Proof.
  intros R. destruct (reachable_completed s R) as [Hn [Hi _]].
  rewrite catalog_ids in Hi.
  pose proof (NoDup_incl_length Hn Hi) as L. cbn [length] in L.
  unfold completedShown, pointsShown. repeat split; try assumption; lia.
Qed.

Lemma completed_exercises_bounded_witness :
  let s := markCompleted (markCompleted
             (match generateRandomExercise (mkUnit 1 1) initial with
              | Some (s', _) => s'
              | None => initial
              end)) in
  NoDup (completedExercises s)
  /\ incl (completedExercises s) [lit "1"; lit "2"; lit "3"]
  /\ completedShown s <= 3
  /\ pointsShown s <= 60.
Proof.
  intros s. apply (completed_exercises_bounded s).
  repeat apply reach_mark.
  apply (reach_generate (mkUnit 1 1) initial _ (starterCode
           (nth 1 exercises (nth 0 exercises
              (mkExercise [] [] [] Easy [] [] 0 [] [] []))))).
  - split; reflexivity.
  - apply reach_initial.
  - reflexivity.
Defined.

(** X19. Every exercise of the catalog can be picked: for each there is a
    number [Math.random()] may return on which the handler selects it. *)
Theorem every_exercise_can_be_picked (exercise : Exercise) (s : State) :
  In exercise exercises ->
  exists random,
    unit_wf random
    /\ generateRandomExercise random s
       = Some ({| currentExercise := Some exercise;
                  completedExercises := completedExercises s;
                  showSolution := false |},
               starterCode exercise).
Proof.
  unfold exercises. cbn [In]. intros [<- | [<- | [<- | []]]].
  - exists (mkUnit 0 0). split; [split; reflexivity | reflexivity].
  - exists (mkUnit 1 1). split; [split; reflexivity | reflexivity].
  - exists (mkUnit 3 2). split; [split; reflexivity | reflexivity].
Qed.

Lemma every_exercise_can_be_picked_witness :
  let exercise := nth 2 exercises
                    (mkExercise [] [] [] Easy [] [] 0 [] [] []) in
  exists random,
    unit_wf random
    /\ generateRandomExercise random initial
       = Some ({| currentExercise := Some exercise;
                  completedExercises := completedExercises initial;
                  showSolution := false |},
               starterCode exercise).
Proof.
  intros exercise. apply (every_exercise_can_be_picked exercise initial).
  right. right. left. reflexivity.
Defined.

(** X20. The completion button is disabled exactly when its handler would
    change nothing: when the identifier of the exercise shown is among the
    completed ones. *)
Theorem mark_button_disabled_iff_no_change (s : State) (exercise : Exercise) :
  currentExercise s = Some exercise ->
  (markDisabled exercise s = true <-> markCompleted s = s).
Proof.
  intros Cur. unfold markDisabled, markCompleted. rewrite Cur.
  destruct (array_includes (completedExercises s) (id exercise));
    cbn [negb].
  - tauto.
  - split; [discriminate|]. intros H.
    apply (f_equal completedExercises) in H. cbn in H.
    apply (f_equal (@length _)) in H. rewrite length_app in H.
    cbn in H. lia.
Qed.

Lemma mark_button_disabled_iff_no_change_witness :
  let exercise := nth 0 exercises
                    (mkExercise [] [] [] Easy [] [] 0 [] [] []) in
  let s := {| currentExercise := Some exercise;
              completedExercises := [lit "1"]; showSolution := true |} in
  markDisabled exercise s = true <-> markCompleted s = s.
Proof.
  intros exercise s.
  apply (mark_button_disabled_iff_no_change s exercise). reflexivity.
Defined.

(** X21. Showing and hiding the solution does not touch the rest: toggling
    twice gives the state back, toggling leaves the completed exercises as
    they are, and it does not matter whether the exercise is marked before
    or after toggling. *)
Theorem toggleSolution_involution (s : State) :
  toggleSolution (toggleSolution s) = s
  /\ completedExercises (toggleSolution s) = completedExercises s
  /\ markCompleted (toggleSolution s) = toggleSolution (markCompleted s).
Proof.
  destruct s as [cur done shown]. unfold toggleSolution, markCompleted.
  cbn. rewrite negb_involutive. repeat split.
  destruct cur as [e|]; [|reflexivity].
  unfold array_includes. destruct (existsb (eqb (id e)) done); reflexivity.
Qed.

End ExerciseMore.

(* ================================================================== *)
(** ** The page and the editor                                          *)
(* ================================================================== *)

Module PageProps.
Import JS JSFacts.

(** X22. Whatever happens to the page, a topic of the catalog stays
    selected and the active tab is one of the four tabs: the branch that
    shows the topic selector alone is never taken. *)
Theorem page_always_has_topic (p : Index.State) :
  Index.reachable p ->
  (exists topic,
      In topic TopicSelector.topics
      /\ Index.selectedTopic p = Some (TopicSelector.id topic))
  /\ Index.selectorOnly p = false
  /\ In (Index.activeTab p) Index.tabs.
Proof.
  induction 1 as [ | topic p Hin _ IH | code p _ IH | code p _ IH
                   | code p _ IH | value p Hv _ IH ].
  - split; [|split; [reflexivity | left; reflexivity]].
    eexists. split; [left; reflexivity | reflexivity].
  - destruct IH as [_ [_ IHt]]. split; [|split; [|exact IHt]].
    + exists topic. split; [exact Hin | reflexivity].
    + unfold Index.selectorOnly. cbn.
      unfold TopicSelector.topics in Hin. cbn [In] in Hin.
      repeat (destruct Hin as [<- | Hin]; [reflexivity|]). destruct Hin.
  - exact IH.
  - destruct IH as [IHs [IHo _]].
    split; [exact IHs | split; [exact IHo | left; reflexivity]].
  - destruct IH as [IHs [IHo _]].
    split; [exact IHs | split; [exact IHo | left; reflexivity]].
  - destruct IH as [IHs [IHo _]].
    split; [exact IHs | split; [exact IHo | exact Hv]].
Qed.

Lemma page_always_has_topic_witness :
  let p := Index.setActiveTab (lit "debug")
             (Index.handleTopicSelect (lit "mobile") Index.initial) in
  (exists topic,
      In topic TopicSelector.topics
      /\ Index.selectedTopic p = Some (TopicSelector.id topic))
  /\ Index.selectorOnly p = false
  /\ In (Index.activeTab p) Index.tabs.
Proof.
  intros p. apply (page_always_has_topic p).
  apply Index.reach_tab; [right; right; left; reflexivity|].
  apply (Index.reach_topic
           (nth 4 TopicSelector.topics
              (TopicSelector.mkTopic [] [] TopicSelector.IconCode []
                 TopicSelector.Beginner []))).
  - do 4 right. left. reflexivity.
  - apply Index.reach_initial.
Defined.

Lemma rerender_blank (code' language' : jsstring) (a : CodeAnalyzer.State) :
  truthy (trim code') = false ->
  CodeAnalyzer.timers (CodeAnalyzer.rerender code' language' a)
  = CodeAnalyzer.timers a
  /\ CodeAnalyzer.analysis (CodeAnalyzer.rerender code' language' a)
     = CodeAnalyzer.analysis a
  /\ CodeAnalyzer.isAnalyzing (CodeAnalyzer.rerender code' language' a)
     = CodeAnalyzer.isAnalyzing a.
Proof.
  intros T. unfold CodeAnalyzer.rerender.
  destruct (eqb code' (CodeAnalyzer.code a)
            && eqb language' (CodeAnalyzer.language a)).
  - repeat split.
  - unfold CodeAnalyzer.effect. cbn [CodeAnalyzer.code]. rewrite T.
    repeat split.
Qed.

(** X23. A topic of the catalog other than javascript, react and python has
    no code example: selecting it empties the current code, and the analysis
    panel rendered with that code and topic starts no analysis and keeps
    the findings it showed. *)
Theorem topic_without_example_empties_code
        (topic : TopicSelector.Topic) (p : Index.State)
        (a : CodeAnalyzer.State) :
  In topic TopicSelector.topics ->
  ~ In (TopicSelector.id topic) [lit "javascript"; lit "react"; lit "python"] ->
  let p' := Index.handleTopicSelect (TopicSelector.id topic) p in
  let a' := CodeAnalyzer.rerender (Index.currentCode p')
              (TopicSelector.id topic) a in
  Index.property Index.codeExamples (TopicSelector.id topic) = None
  /\ Index.currentCode p' = []
  /\ CodeAnalyzer.timers a' = CodeAnalyzer.timers a
  /\ CodeAnalyzer.analysis a' = CodeAnalyzer.analysis a.
Proof.
  intros Hin Hno p' a'.
  assert (Index.property Index.codeExamples (TopicSelector.id topic) = None)
    as P.
  { unfold TopicSelector.topics in Hin. cbn [In] in Hin.
    destruct Hin as [<- | [<- | [<- | [<- | [<- | [<- | []]]]]]];
      try reflexivity; exfalso; apply Hno; cbn; tauto. }
  assert (Index.currentCode p' = []) as C.
  { subst p'. unfold Index.handleTopicSelect. cbn [Index.currentCode].
    now rewrite P. }
  split; [exact P|]. split; [exact C|].
  subst a'. rewrite C.
  destruct (rerender_blank [] (TopicSelector.id topic) a eq_refl)
    as [Ht [Ha _]].
  split; assumption.
Qed.

Lemma topic_without_example_empties_code_witness :
  let topic := nth 3 TopicSelector.topics
                 (TopicSelector.mkTopic [] [] TopicSelector.IconCode []
                    TopicSelector.Beginner []) in
  let a := CodeAnalyzer.timeout
             (CodeAnalyzer.mount Index.codeExamples_javascript
                (lit "javascript")) in
  let p' := Index.handleTopicSelect (TopicSelector.id topic) Index.initial in
  let a' := CodeAnalyzer.rerender (Index.currentCode p')
              (TopicSelector.id topic) a in
  Index.property Index.codeExamples (TopicSelector.id topic) = None
  /\ Index.currentCode p' = []
  /\ CodeAnalyzer.timers a' = CodeAnalyzer.timers a
  /\ CodeAnalyzer.analysis a' = CodeAnalyzer.analysis a.
Proof.
  intros topic a.
  apply (topic_without_example_empties_code topic Index.initial a).
  - do 3 right. left. reflexivity.
  - cbn. intros [H | [H | [H | []]]]; discriminate H.
Defined.

(** X24. The text of the editor is what was typed last, or the code it was
    mounted with (the empty string when it got none) if nothing was typed
    yet: renders with a new initial code do not reach the text area, and
    Run and Copy hand out that text. *)
Theorem editor_keeps_typed_text
        (initialCode : option jsstring) (events : list CodeEditor.Event) :
  let s := fold_left CodeEditor.handle events (CodeEditor.mount initialCode) in
  CodeEditor.code s
  = match CodeEditor.lastTyped events, initialCode with
    | Some value, _ => value
    | None, Some c => c
    | None, None => []
    end
  /\ CodeEditor.handleRunCode s = CodeEditor.code s
  /\ CodeEditor.handleCopyCode s = CodeEditor.code s.
Proof.
  cbn zeta. split; [|split; reflexivity].
  assert (forall s0,
    CodeEditor.code (fold_left CodeEditor.handle events s0)
    = match CodeEditor.lastTyped events with
      | Some value => value
      | None => CodeEditor.code s0
      end) as G.
  { induction events as [|e events IH]; intros s0; [reflexivity|].
    cbn [fold_left CodeEditor.lastTyped]. rewrite IH.
    destruct (CodeEditor.lastTyped events); [reflexivity|].
    destruct e; reflexivity. }
  rewrite G. destruct (CodeEditor.lastTyped events); [reflexivity|].
  destruct initialCode; reflexivity.
Qed.

End PageProps.
